(** * oaipmh.server: the OAI-PMH responder, embedded and verified

    A shallow embedding of [oaipmh/server.py].  The module builds lxml
    element trees by mutation ([Element], [SubElement], [set], [.text = ...])
    and fails by raising Python exceptions, so the embedding runs in a
    state-and-exception monad over a heap of lxml elements.  Elements are
    heap references, exactly as the Python variables [e_oaipmh], [e_request],
    ... are references to mutable objects. *)

From Stdlib Require Import Ascii.
From stdpp Require Import base option list strings gmap.

(** ** The Python runtime: exceptions, results, iterables *)

(** Exceptions are identified by their class.  The built-in ones are the
    ones the interpreter itself raises while running [server.py]; [UserError]
    stands for a class defined by a library or a collaborator (the backend,
    the metadata registry), named by its class name. *)
Inductive exn : Type :=
  | NameError (name : string)
  | AttributeError (attr : string)
  | IndexError
  | TypeError
  | NotImplementedError
  | UserError (cls : string).

#[export] Instance exn_eq_dec : EqDecision exn.
Proof. solve_decision. Defined.

Definition UnsupportedMetadataFormat : exn := UserError "UnsupportedMetadataFormat".

Inductive result (A : Type) : Type :=
  | Ok (a : A)
  | Raise (e : exn).
Arguments Ok {A} a.
Arguments Raise {A} e.

(** A Python iterable as the [for] statement sees it: it yields items one
    at a time and either stops or raises.  A backend call that raises at
    once is [Throw e]. *)
Inductive pyiter (A : Type) : Type :=
  | StopIteration
  | Yield (a : A) (rest : pyiter A)
  | Throw (e : exn).
Arguments StopIteration {A}.
Arguments Yield {A} a rest.
Arguments Throw {A} e.

Fixpoint iter_list {A} (l : list A) : pyiter A :=
  match l with
  | [] => StopIteration
  | a :: l' => Yield a (iter_list l')
  end.

(** A value that is either a [str] or a [list] of [str]; Python iterates
    over both, a [str] yielding its one-character substrings. *)
Inductive pyseq : Type :=
  | PyStr (s : string)
  | PyList (l : list string).

#[export] Instance pyseq_eq_dec : EqDecision pyseq.
Proof. solve_decision. Defined.

Fixpoint chars (s : string) : list string :=
  match s with
  | EmptyString => []
  | String c s' => String c EmptyString :: chars s'
  end.

Definition iter_pyseq (v : pyseq) : list string :=
  match v with
  | PyStr s => chars s
  | PyList l => l
  end.

(** [str.lower] on one character (ASCII). *)
Definition lower_ascii (c : ascii) : ascii :=
  let n := nat_of_ascii c in
  if (65 <=? n)%nat && (n <=? 90)%nat then ascii_of_nat (n + 32) else c.

(** ** lxml.etree: elements on a heap *)

Abbreviation ref := nat.

(** What an element carries itself: its qualified tag, the namespace
    declarations made on it, its attributes in document order, its text. *)
Record elem : Type := Elem {
  tag : string;
  nsmap_of : list (option string * string);
  attrib : list (string * string);
  text : option string
}.

(** A heap cell: the element and the references of its children, in order. *)
Abbreviation node := (elem * list ref)%type.
Abbreviation heap := (list node).

(** The state-and-exception monad.  The heap survives an exception, as
    mutations made before a [raise] do in Python. *)
Definition M (A : Type) : Type := heap → result A * heap.

#[export] Instance M_ret : MRet M := λ A a h, (Ok a, h).
#[export] Instance M_bind : MBind M := λ A B f c h,
  match c h with
  | (Ok a, h') => f a h'
  | (Raise e, h') => (Raise e, h')
  end.

Definition raise {A} (e : exn) : M A := λ h, (Raise e, h).

Definition lift {A} (r : result A) : M A := λ h, (r, h).

(** [for x in l: body(x)] over a list, and over an arbitrary iterable. *)
Fixpoint for_each {A} (l : list A) (body : A → M unit) : M unit :=
  match l with
  | [] => mret tt
  | a :: l' => body a ;; for_each l' body
  end.

Fixpoint for_iter {A} (g : pyiter A) (body : A → M unit) : M unit :=
  match g with
  | StopIteration => mret tt
  | Yield a rest => body a ;; for_iter rest body
  | Throw e => raise e
  end.

(** What a loop over an iterable gets to see: the items, and how it ends. *)
Fixpoint iter_items {A} (g : pyiter A) : list A :=
  match g with
  | Yield a rest => a :: iter_items rest
  | _ => []
  end.

Fixpoint iter_end {A} (g : pyiter A) : result unit :=
  match g with
  | StopIteration => Ok tt
  | Yield _ rest => iter_end rest
  | Throw e => Raise e
  end.

(** [element.set(key, value)]: an existing attribute keeps its place and
    takes the new value, a new one goes last. *)
Fixpoint attr_set (k v : string) (l : list (string * string)) : list (string * string) :=
  match l with
  | [] => [(k, v)]
  | (k', v') :: l' => if decide (k' = k) then (k, v) :: l' else (k', v') :: attr_set k v l'
  end.

Definition elem_set (k v : string) (e : elem) : elem :=
  Elem (tag e) (nsmap_of e) (attr_set k v (attrib e)) (text e).

Definition elem_text (s : string) (e : elem) : elem :=
  Elem (tag e) (nsmap_of e) (attrib e) (Some s).

(** [Element(tag, nsmap=...)]: a fresh element without a parent. *)
Definition Element (tg : string) (ns : list (option string * string)) : M ref :=
  λ h, (Ok (length h), h ++ [(Elem tg ns [] None, [])]).

(** [SubElement(parent, tag)]: a fresh element appended as the last child of
    [parent].  It declares no namespace of its own.  (A Python variable
    always names a live element; on a reference that the heap does not hold,
    the updates below change nothing.) *)
Definition SubElement (parent : ref) (tg : string) : M ref :=
  λ h, (Ok (length h),
        alter (λ n : node, (n.1, n.2 ++ [length h])) parent h ++ [(Elem tg [] [] None, [])]).

Definition set (r : ref) (k v : string) : M unit :=
  λ h, (Ok tt, alter (λ n : node, (elem_set k v n.1, n.2)) r h).

Definition set_text (r : ref) (s : string) : M unit :=
  λ h, (Ok tt, alter (λ n : node, (elem_text s n.1, n.2)) r h).

(** [ElementTree(element=e)] wraps the root. *)
Record ElementTree : Type := MkElementTree { getroot : ref }.

(** The document below an element, as a tree. *)
#[local] Unset Elimination Schemes.
Inductive Tree : Type := TNode (e : elem) (kids : list Tree).
#[local] Set Elimination Schemes.

(** The element at the root of a tree, and the trees below it. *)
Definition root_elem (t : Tree) : elem := match t with TNode e _ => e end.
Definition subtrees (t : Tree) : list Tree := match t with TNode _ ks => ks end.

(** Reading follows the child references; a tree of a heap is no deeper
    than the heap is long, which is the fuel of [to_tree]. *)
Fixpoint reify (fuel : nat) (h : heap) (r : ref) : option Tree :=
  match fuel with
  | O => None
  | S k =>
      match h !! r with
      | None => None
      | Some (e, cs) => TNode e <$> mapM (reify k h) cs
      end
  end.

Definition to_tree (h : heap) (r : ref) : option Tree := reify (length h) h r.

(** The layout of a tree built in document order, its root at [b]. *)
Fixpoint size (t : Tree) : nat :=
  match t with TNode _ ks => S (list_sum (map size ks)) end.

Fixpoint roots (b : nat) (ks : list Tree) : list ref :=
  match ks with
  | [] => []
  | k :: ks' => b :: roots (b + size k) ks'
  end.

Fixpoint layout (b : nat) (t : Tree) : list node :=
  match t with
  | TNode e ks =>
      (e, roots (S b) ks) ::
      (fix go (b' : nat) (l : list Tree) : list node :=
         match l with
         | [] => []
         | k :: l' => layout b' k ++ go (b' + size k) l'
         end) (S b) ks
  end.

Fixpoint layouts (b : nat) (ks : list Tree) : list node :=
  match ks with
  | [] => []
  | k :: ks' => layout b k ++ layouts (b + size k) ks'
  end.

(** Induction on trees that reaches the subtrees. *)
Section Tree_induction.
Variable P : Tree → Prop.
Hypothesis step : ∀ e ks, Forall P ks → P (TNode e ks).

Fixpoint Tree_ind (t : Tree) : P t :=
  match t with
  | TNode e ks =>
      step e ks
        ((fix go (l : list Tree) : Forall P l :=
            match l with
            | [] => Forall_nil_2 P
            | k :: l' => Forall_cons_2 P k l' (Tree_ind k) (go l')
            end) ks)
  end.
End Tree_induction.

Definition leaf (tg s : string) : Tree := TNode (Elem tg [] [] (Some s)) [].

(** The heap after a piece of code has worked on the element [p]: it has
    changed what [p] carries by [f] and has built the trees [ks], in document
    order, as the next children of [p]. *)
Definition grafted (p : ref) (f : elem → elem) (ks : list Tree) (h : heap) : heap :=
  alter (λ n : node, (f n.1, n.2 ++ roots (length h) ks)) p h ++ layouts (length h) ks.

(** [shapes c p res f ks]: run on any heap that holds [p], the code [c] ends
    in [res] and leaves the heap [grafted]. *)
Definition shapes {A} (c : M A) (p : ref) (res : result A)
    (f : elem → elem) (ks : list Tree) : Prop :=
  ∀ h, p < length h → c h = (res, grafted p f ks h).

(** [etree.tostring(element)]: the serialisation is taken to be the tree
    itself, read back from the heap. *)
Definition tostring (r : ref) : M Tree :=
  λ h, match to_tree h r with
       | Some t => (Ok t, h)
       | None => (Raise TypeError, h)
       end.

(** ** datetime *)

Record datetime : Type := Datetime {
  year : nat; month : nat; day : nat;
  hour : nat; minute : nat; second : nat;
  microsecond : nat
}.

(** [dt.replace(microsecond=us)] *)
Definition replace_microsecond (dt : datetime) (us : nat) : datetime :=
  Datetime (year dt) (month dt) (day dt) (hour dt) (minute dt) (second dt) us.

(** ** oaipmh.common: the value classes the server reads *)

(** [oaipmh.common] is not among the sources.  The server reads its value
    classes through accessor methods only, which are the fields here. *)

Module ServerIdentify.
(** Modelled from the spec: the class [common.ServerIdentify], the
    "RepositoryIdentity" of the data model.  [Server.identify] builds it from
    keyword arguments of these names and passes a [str] as its compression
    where the data model has a list, so the field holds either. *)
Record t : Type := Make {
  repositoryName : string;
  baseURL : string;
  protocolVersion : string;
  adminEmails : list string;
  earliestDatestamp : datetime;
  deletedRecord : string;
  granularity : string;
  compression : pyseq
}.
End ServerIdentify.

Module Header.
(** Modelled from the spec: the header class of [oaipmh.common], "identifier
    (string), datestamp (date/time), setSpec (ordered list of strings,
    insertion order significant), deleted flag". *)
Record t : Type := Make {
  identifier : string;
  datestamp : datetime;
  setSpec : list string;
  isDeleted : bool
}.
End Header.

Module Metadata.
(** Modelled from the spec: the metadata class, whose "only required
    capability is exposing an ordered, multi-valued mapping from field name
    to list of string values"; [oai_dc_writer] reads it with [getMap()]. *)
Record t : Type := Make { getMap : gmap string (list string) }.
End Metadata.

(** The third component of a record, which [listRecords] does not look at. *)
Definition About : Type := option string.

Definition digit (n : nat) : ascii := ascii_of_nat (48 + n mod 10).
Definition pad2 (n : nat) : string :=
  String (digit (n / 10)) (String (digit n) EmptyString).
Definition pad4 (n : nat) : string :=
  String (digit (n / 1000)) (String (digit (n / 100)) (pad2 n)).

(** Modelled from the spec: [common.datetime_to_datestamp] is not among the
    sources.  The specification fixes its output: "format is always
    [YYYY-MM-DDThh:mm:ssZ]", a UTC value at second granularity. *)
Definition datetime_to_datestamp_spec (dt : datetime) : string :=
  pad4 (year dt) +:+ "-" +:+ pad2 (month dt) +:+ "-" +:+ pad2 (day dt) +:+ "T" +:+
  pad2 (hour dt) +:+ ":" +:+ pad2 (minute dt) +:+ ":" +:+ pad2 (second dt) +:+ "Z".

(** The specification's wording of the response date, "formatted per the
    repository's granularity": a datestamp "at a declared granularity (day
    or second)". *)
Definition datestamp_per_granularity (granularity : string) (dt : datetime) : string :=
  if decide (granularity = "YYYY-MM-DD")
  then pad4 (year dt) +:+ "-" +:+ pad2 (month dt) +:+ "-" +:+ pad2 (day dt)
  else datetime_to_datestamp_spec dt.

(** ** Name resolution for [raise <name>] *)

(** The names bound at the top level of [server.py]. *)
Definition module_globals : list string :=
  ["ElementTree"; "Element"; "SubElement"; "etree"; "datetime"; "common"; "metadata";
   "NS_OAIPMH"; "NS_XSI"; "NS_OAIDC"; "NS_DC"; "nsmap";
   "Server"; "XMLTreeServer"; "XMLServer"; "oai_dc_writer"; "nsoai"; "nsoaidc"; "nsdc"].

(** The built-in exception classes, as far as [exn] tells them apart. *)
Definition builtin_exception (name : string) : option exn :=
  if decide (name = "NotImplementedError") then Some NotImplementedError
  else if decide (name = "IndexError") then Some IndexError
  else if decide (name = "TypeError") then Some TypeError
  else None.

(** The exception that [raise name] ends in, inside a function whose local
    names are [locals]: the name is looked up among the locals, the module's
    globals and the built-ins.  A name bound to something that is no
    exception cannot be raised ([TypeError]); an unbound name is a
    [NameError]. *)
Definition raise_name (locals : list string) (name : string) : exn :=
  if decide (name ∈ locals ++ module_globals) then TypeError
  else default (NameError name) (builtin_exception name).

(** ** The backend interface *)

(** A keyword dictionary as a callee receives it through [**kw]. *)
Abbreviation kwargs := (gmap string (option string)).

(** What [XMLTreeServer] asks of the object it is given as [server]: the
    methods of [Server], called with keyword arguments. *)
Record ServerAPI : Type := {
  api_getRecord : string → string → result (Header.t * Metadata.t * About);
  api_identify : result ServerIdentify.t;
  api_listIdentifiers : kwargs → pyiter Header.t;
  api_listMetadataFormats : kwargs → pyiter (string * string * string);
  api_listRecords : kwargs → pyiter (Header.t * Metadata.t * About);
  api_listSets : kwargs → pyiter (string * string * string)
}.

(** ** class Server *)

Module Server.
Record t : Type := Make {
  _repositoryName : string;
  _baseURL : string;
  _adminEmails : list string
}.

Definition getRecord (self : t) (identifier metadataPrefix : string)
  : result (Header.t * Metadata.t * About) :=
  Raise (raise_name ["self"; "identifier"; "metadataPrefix"] "notImplementedError").

Definition _getEarliestDatestamp (self : t) : result datetime :=
  Raise (raise_name ["self"] "NotImplementedError").

(** [identify] calls [self._getEarliestDatestamp()], which a subclass
    overrides; the method in force is the parameter [getEarliest]. *)
Definition identify (self : t) (getEarliest : t → result datetime)
  : result ServerIdentify.t :=
  match getEarliest self with
  | Raise e => Raise e
  | Ok earliest =>
      Ok (ServerIdentify.Make
            (_repositoryName self) (_baseURL self) "2.0" (_adminEmails self)
            earliest "transient" "YYYY-MM-DDThh:mm:ssZ" (PyStr "identity"))
  end.

Definition listIdentifiers (self : t)
    (metadataPrefix from_ until set_ resumptionToken : option string)
  : pyiter Header.t :=
  Throw (raise_name ["self"; "metadataPrefix"; "from_"; "until"; "set"; "resumptionToken"]
           "NotImplementedError").

Definition listMetadataFormats (self : t) (identifier : option string)
  : pyiter (string * string * string) :=
  Throw (raise_name ["self"; "identifier"] "NotImplementedError").

Definition listRecords (self : t)
    (metadataPrefix from_ until set_ resumptionToken : option string)
  : pyiter (Header.t * Metadata.t * About) :=
  Throw (raise_name ["self"; "metadataPrefix"; "from_"; "until"; "set"; "resumptionToken"]
           "NotImplementedError").

Definition listSets (self : t) (resumptionToken : option string)
  : pyiter (string * string * string) :=
  Throw (raise_name ["self"; "resumptionToken"] "NotImplementedError").

Definition baseURL (self : t) : string := _baseURL self.
End Server.

(** Binding a keyword dictionary to a signature: every key must name a
    parameter and every parameter without a default must be given, or the
    call is a [TypeError].  An omitted parameter takes its default [None]. *)
Definition binds (params required : list string) (kw : kwargs) : bool :=
  bool_decide (dom kw ⊆ list_to_set params) &&
  bool_decide (list_to_set required ⊆ dom kw).

Definition arg (kw : kwargs) (name : string) : option string :=
  default None (kw !! name).

(** A [Server] (or a subclass that only overrides [_getEarliestDatestamp])
    as the backend of an [XMLTreeServer]. *)
Definition Server_api (self : Server.t) (getEarliest : Server.t → result datetime)
  : ServerAPI :=
  {| api_getRecord := Server.getRecord self;
     api_identify := Server.identify self getEarliest;
     api_listIdentifiers := λ kw,
       if binds ["metadataPrefix"; "from_"; "until"; "set"; "resumptionToken"]
                ["metadataPrefix"] kw
       then Server.listIdentifiers self (arg kw "metadataPrefix") (arg kw "from_")
              (arg kw "until") (arg kw "set") (arg kw "resumptionToken")
       else Throw TypeError;
     api_listMetadataFormats := λ kw,
       if binds ["identifier"] [] kw
       then Server.listMetadataFormats self (arg kw "identifier")
       else Throw TypeError;
     api_listRecords := λ kw,
       if binds ["metadataPrefix"; "from_"; "until"; "set"; "resumptionToken"]
                ["metadataPrefix"] kw
       then Server.listRecords self (arg kw "metadataPrefix") (arg kw "from_")
              (arg kw "until") (arg kw "set") (arg kw "resumptionToken")
       else Throw TypeError;
     api_listSets := λ kw,
       if binds ["resumptionToken"] [] kw
       then Server.listSets self (arg kw "resumptionToken")
       else Throw TypeError |}.

(** ** The metadata registry *)

(** A writer is called as [writer(element, metadata)] and works on the
    element by mutation. *)
Definition writer : Type := ref → Metadata.t → M unit.

(** Modelled from the spec: [oaipmh.metadata] is not among the sources.  The
    registry is a "pluggable mapping from metadataPrefix to a writer";
    "an unregistered prefix fails with [UnsupportedMetadataFormat]". *)
Record MetadataRegistry : Type := { _writers : gmap string writer }.

(** Modelled from the spec: the lookup of the absent registry.  The writer
    registered under a prefix; nothing is registered under [None]. *)
Definition registered (self : MetadataRegistry) (metadata_prefix : option string)
  : option writer :=
  metadata_prefix ≫= (λ p, _writers self !! p).

(** Modelled from the spec: [MetadataRegistry.writeMetadata], absent like the
    rest of [oaipmh.metadata].  It hands the element and the record to the
    writer of the prefix; "an unregistered prefix fails with
    [UnsupportedMetadataFormat]". *)
Definition writeMetadata (self : MetadataRegistry) (metadata_prefix : option string)
    (element : ref) (metadata : Metadata.t) : M unit :=
  match registered self metadata_prefix with
  | Some w => w element metadata
  | None => raise UnsupportedMetadataFormat
  end.

(** ** Module constants and helpers of server.py *)

Definition NS_OAIPMH : string := "http://www.openarchives.org/OAI/2.0/".
Definition NS_XSI : string := "http://www.w3.org/2001/XMLSchema-instance".
Definition NS_OAIDC : string := "http://www.openarchives.org/OAI/2.0/oai_dc/".
Definition NS_DC : string := "http://purl.org/dc/elements/1.1/".

Definition nsmap : list (option string * string) :=
  [(None, NS_OAIPMH); (Some "xsi", NS_XSI); (Some "oai_dc", NS_OAIDC); (Some "dc", NS_DC)].

Definition nsoai (name : string) : string := "{" +:+ NS_OAIPMH +:+ "}" +:+ name.
Definition nsoaidc (name : string) : string := "{" +:+ NS_OAIDC +:+ "}" +:+ name.
Definition nsdc (name : string) : string := "{" +:+ NS_DC +:+ "}" +:+ name.

Definition dc_fields : list string :=
  ["title"; "creator"; "subject"; "description"; "publisher";
   "contributor"; "date"; "type"; "format"; "identifier";
   "source"; "language"; "relation"; "coverage"; "rights"].

Definition oai_dc_writer (element : ref) (metadata : Metadata.t) : M unit :=
  e_dc ← SubElement element (nsoaidc "dc");
  set e_dc ("{" +:+ NS_XSI +:+ "}schemaLocation")
      (NS_DC +:+ " http://www.openarchives.org/OAI/2.0/oai_dc.xsd");;
  let map := Metadata.getMap metadata in
  for_each dc_fields (λ name,
    for_each (default [] (map !! name)) (λ value,
      e ← SubElement e_dc (nsdc name);
      set_text e value)).

(** ** class XMLTreeServer *)

(** A keyword dictionary as [**kw] builds it in the callee: its items in
    the order of the call, a value possibly [None].  The values are text:
    they go to [e_request.set(key, value)] as they are, and lxml takes
    nothing else for an attribute. *)
Abbreviation kwdict := (list (string * option string)).

Module XMLTreeServer.
Record t : Type := Make {
  _server : ServerAPI;
  _metadata_registry : MetadataRegistry
}.
End XMLTreeServer.

Section Responder.
(** [common.datetime_to_datestamp], which is not among the sources, the
    reading of the clock that [datetime.utcnow()] returns during the call,
    and [metadata.global_metadata_registry]. *)
Variable datetime_to_datestamp : datetime → string.
Variable utcnow : datetime.
Variable global_metadata_registry : MetadataRegistry.

Import XMLTreeServer.

(** [XMLTreeServer.__init__]; [metadata_registry or global] *)
Definition XMLTreeServer_init (server : ServerAPI)
    (metadata_registry : option MetadataRegistry) : XMLTreeServer.t :=
  XMLTreeServer.Make server (default global_metadata_registry metadata_registry).

Definition getRecord (self : XMLTreeServer.t) (identifier metadataPrefix : option string)
  : M (option ElementTree) :=
  mret None.

Definition _outputEnvelope (self : XMLTreeServer.t) (kw : kwdict) : M ElementTree :=
  e_oaipmh ← Element (nsoai "OAI-PMH") nsmap;
  set e_oaipmh ("{" +:+ NS_XSI +:+ "}schemaLocation")
      ("http://www.openarchives.org/OAI/2.0/ " +:+
       "http://www.openarchives.org/OAI/2.0/OAI-PMH.xsd");;
  let e_tree := MkElementTree e_oaipmh in
  e_responseDate ← SubElement e_oaipmh (nsoai "responseDate");
  set_text e_responseDate
    (datetime_to_datestamp (replace_microsecond utcnow 0));;
  e_request ← SubElement e_oaipmh (nsoai "request");
  for_each kw (λ '(key, value),
    match value with
    | Some value =>
        let key := if decide (key = "from_") then "from" else key in
        set e_request key value
    | None => mret tt
    end);;
  identify ← lift (api_identify (_server self));
  set_text e_request (ServerIdentify.baseURL identify);;
  mret e_tree.

Definition _outputHeader (self : XMLTreeServer.t) (element : ref) (header : Header.t)
  : M unit :=
  e_header ← SubElement element (nsoai "header");
  e_identifier ← SubElement e_header (nsoai "identifier");
  set_text e_identifier (Header.identifier header);;
  e_datestamp ← SubElement e_header (nsoai "datestamp");
  set_text e_datestamp (datetime_to_datestamp (Header.datestamp header));;
  for_each (Header.setSpec header) (λ set_,
    e ← SubElement e_header (nsoai "setSpec");
    set_text e set_).

Definition _outputMetadata (self : XMLTreeServer.t) (element : ref)
    (metadata_prefix : option string) (metadata : Metadata.t) : M unit :=
  e_metadata ← SubElement element (nsoai "metadata");
  writeMetadata (_metadata_registry self) metadata_prefix e_metadata metadata.

Definition identify (self : XMLTreeServer.t) : M ElementTree :=
  envelope ← _outputEnvelope self [("verb", Some "Identify")];
  identify ← lift (api_identify (_server self));
  e_identify ← SubElement (getroot envelope) (nsoai "Identify");
  e_repositoryName ← SubElement e_identify (nsoai "repositoryName");
  set_text e_repositoryName (ServerIdentify.repositoryName identify);;
  e_baseURL ← SubElement e_identify (nsoai "baseURL");
  set_text e_baseURL (ServerIdentify.baseURL identify);;
  e_protocolVersion ← SubElement e_identify (nsoai "protocolVersion");
  set_text e_protocolVersion (ServerIdentify.protocolVersion identify);;
  for_each (ServerIdentify.adminEmails identify) (λ adminEmail,
    e ← SubElement e_identify (nsoai "adminEmail");
    set_text e adminEmail);;
  e_earliestDatestamp ← SubElement e_identify (nsoai "earliestDatestamp");
  set_text e_earliestDatestamp
    (datetime_to_datestamp (ServerIdentify.earliestDatestamp identify));;
  e_deletedRecord ← SubElement e_identify (nsoai "deletedRecord");
  set_text e_deletedRecord (ServerIdentify.deletedRecord identify);;
  e_granularity ← SubElement e_identify (nsoai "granularity");
  set_text e_granularity (ServerIdentify.granularity identify);;
  let compressions := ServerIdentify.compression identify in
  (if decide (compressions ≠ PyList ["identity"])
   then for_each (iter_pyseq compressions) (λ compression,
          e_compression ← SubElement e_identify (nsoai "compression");
          set_text e_compression compression)
   else mret tt);;
  mret envelope.

(** The dictionary that the listing verbs pass on to the backend. *)
Definition listing_kw (metadataPrefix from_ until set_ resumptionToken : option string)
  : kwargs :=
  let kw : kwargs := ∅ in
  let kw := <["metadataPrefix" := metadataPrefix]> kw in
  let kw := if from_ is Some _ then <["from_" := from_]> kw else kw in
  let kw := if until is Some _ then <["until" := until]> kw else kw in
  let kw := if set_ is Some _ then <["set" := set_]> kw else kw in
  let kw := if resumptionToken is Some _
            then <["resumptionToken" := resumptionToken]> kw else kw in
  kw.

Definition listIdentifiers (self : XMLTreeServer.t)
    (metadataPrefix from_ until set_ resumptionToken : option string) : M ElementTree :=
  envelope ← _outputEnvelope self
    [("verb", Some "ListIdentifiers"); ("from_", from_);
     ("metadataPrefix", metadataPrefix); ("until", until); ("set", set_);
     ("resumptionToken", resumptionToken)];
  e_listIdentifiers ← SubElement (getroot envelope) (nsoai "ListIdentifiers");
  let kw := listing_kw metadataPrefix from_ until set_ resumptionToken in
  for_iter (api_listIdentifiers (_server self) kw) (λ header,
    _outputHeader self e_listIdentifiers header);;
  mret envelope.

Definition listMetadataFormats (self : XMLTreeServer.t) (identifier : option string)
  : M ElementTree :=
  envelope ← _outputEnvelope self
    [("verb", Some "ListMetadataFormats"); ("identifier", identifier)];
  e_listMetadataFormats ← SubElement (getroot envelope) (nsoai "ListMetadataFormats");
  let kw : kwargs := ∅ in
  let kw := if identifier is Some _ then <["identifier" := identifier]> kw else kw in
  for_iter (api_listMetadataFormats (_server self) kw)
    (λ '(metadataPrefix, schema, metadataNamespace),
      e_metadataFormat ← SubElement e_listMetadataFormats (nsoai "metadataFormat");
      e_metadataPrefix ← SubElement e_metadataFormat (nsoai "metadataPrefix");
      set_text e_metadataPrefix metadataPrefix;;
      e_schema ← SubElement e_metadataFormat (nsoai "schema");
      set_text e_schema schema;;
      e_metadataNamespace ← SubElement e_metadataFormat (nsoai "metadataNamespace");
      set_text e_metadataNamespace metadataNamespace);;
  mret envelope.

Definition listRecords (self : XMLTreeServer.t)
    (metadataPrefix from_ until set_ resumptionToken : option string) : M ElementTree :=
  envelope ← _outputEnvelope self
    [("verb", Some "ListRecords"); ("metadataPrefix", metadataPrefix);
     ("from_", from_); ("until", until); ("set", set_);
     ("resumptionToken", resumptionToken)];
  e_listRecords ← SubElement (getroot envelope) (nsoai "ListRecords");
  let kw := listing_kw metadataPrefix from_ until set_ resumptionToken in
  for_iter (api_listRecords (_server self) kw) (λ '(header, metadata, about),
    e_record ← SubElement e_listRecords (nsoai "record");
    _outputHeader self e_record header;;
    _outputMetadata self e_record metadataPrefix metadata);;
  mret envelope.

(** *** class XMLServer *)

(** The attributes that [getattr] finds on an [XMLTreeServer] instance:
    what the class body defines and what [__init__] binds. *)
Inductive member : Type :=
  | m_init | m_getRecord | m_identify | m_listIdentifiers
  | m_listMetadataFormats | m_listRecords
  | m_outputEnvelope | m_outputHeader | m_outputMetadata
  | m_server | m_metadata_registry.

Definition XMLTreeServer_attributes : list (string * member) :=
  [("__init__", m_init); ("getRecord", m_getRecord); ("identify", m_identify);
   ("listIdentifiers", m_listIdentifiers);
   ("listMetadataFormats", m_listMetadataFormats);
   ("listRecords", m_listRecords);
   ("_outputEnvelope", m_outputEnvelope); ("_outputHeader", m_outputHeader);
   ("_outputMetadata", m_outputMetadata);
   ("_server", m_server); ("_metadata_registry", m_metadata_registry)].

Definition getattr (name : string) : result member :=
  match (list_to_map XMLTreeServer_attributes : gmap string member) !! name with
  | Some m => Ok m
  | None => Raise (AttributeError name)
  end.

(** A member called with [kw] as its keyword arguments, a dictionary
    whose values are strings or [None].
    The methods bind [kw] to their signature.  [_outputHeader] and
    [_outputMetadata] need an element and can only be given a string, on
    which [SubElement] is a [TypeError]; the two instance attributes are
    not callable; [__init__] returns [None]. *)
Definition call_member (self : XMLTreeServer.t) (m : member) (kw : kwdict)
  : M (option ElementTree) :=
  let d : kwargs := list_to_map kw in
  let listing := ["metadataPrefix"; "from_"; "until"; "set"; "resumptionToken"] in
  match m with
  | m_identify =>
      if binds [] [] d then t ← identify self; mret (Some t) else raise TypeError
  | m_getRecord =>
      if binds ["identifier"; "metadataPrefix"] ["identifier"; "metadataPrefix"] d
      then getRecord self (arg d "identifier") (arg d "metadataPrefix")
      else raise TypeError
  | m_listIdentifiers =>
      if binds listing ["metadataPrefix"] d
      then t ← listIdentifiers self (arg d "metadataPrefix") (arg d "from_")
                 (arg d "until") (arg d "set") (arg d "resumptionToken");
           mret (Some t)
      else raise TypeError
  | m_listMetadataFormats =>
      if binds ["identifier"] [] d
      then t ← listMetadataFormats self (arg d "identifier"); mret (Some t)
      else raise TypeError
  | m_listRecords =>
      if binds listing ["metadataPrefix"] d
      then t ← listRecords self (arg d "metadataPrefix") (arg d "from_")
                 (arg d "until") (arg d "set") (arg d "resumptionToken");
           mret (Some t)
      else raise TypeError
  | m_outputEnvelope => t ← _outputEnvelope self kw; mret (Some t)
  | m_init =>
      if binds ["server"; "metadata_registry"] ["server"; "metadata_registry"] d
      then mret None else raise TypeError
  | m_outputHeader | m_outputMetadata | m_server | m_metadata_registry =>
      raise TypeError
  end.

Record XMLServer : Type := { _tree_server : XMLTreeServer.t }.

Definition XMLServer_init (server : ServerAPI)
    (metadata_registry : option MetadataRegistry) : XMLServer :=
  {| _tree_server := XMLTreeServer_init server metadata_registry |}.

(** [verb[0].lower() + verb[1:]], [getattr], the call, [.getroot()] on
    what it returns and [etree.tostring]. *)
Definition handleVerb (self : XMLServer) (verb : string) (args : list string)
    (kw : kwdict) : M Tree :=
  match verb with
  | EmptyString => raise IndexError
  | String c rest =>
      let method_name := String (lower_ascii c) EmptyString +:+ rest in
      m ← lift (getattr method_name);
      r ← call_member (_tree_server self) m kw;
      match r with
      | Some envelope => tostring (getroot envelope)
      | None => raise (AttributeError "getroot")
      end
  end.
End Responder.

(** ** The documents, as trees *)

(** What the operations are shown to build, written as plain trees. *)

Definition element (tg : string) (ks : list Tree) : Tree := TNode (Elem tg [] [] None) ks.

Definition header_tree (datetime_to_datestamp : datetime → string) (header : Header.t) : Tree :=
  element (nsoai "header")
    (leaf (nsoai "identifier") (Header.identifier header) ::
     leaf (nsoai "datestamp") (datetime_to_datestamp (Header.datestamp header)) ::
     (leaf (nsoai "setSpec") <$> Header.setSpec header)).

Definition dc_elem : elem :=
  Elem (nsoaidc "dc") []
       [("{" +:+ NS_XSI +:+ "}schemaLocation",
         NS_DC +:+ " http://www.openarchives.org/OAI/2.0/oai_dc.xsd")] None.

Definition dc_children (map : gmap string (list string)) : list Tree :=
  flat_map (λ name, leaf (nsdc name) <$> default [] (map !! name)) dc_fields.

Definition dc_tree (metadata : Metadata.t) : Tree :=
  TNode dc_elem (dc_children (Metadata.getMap metadata)).

(** The attributes that the loop over [kw.items()] leaves on [request]. *)
Definition echo (key : string) : string :=
  if decide (key = "from_") then "from" else key.

Definition request_attrib (kw : kwdict) : list (string * string) :=
  foldl (λ a '(key, value),
           match value with
           | Some value => attr_set (echo key) value a
           | None => a
           end) [] kw.

Definition envelope_elem : elem :=
  Elem (nsoai "OAI-PMH") nsmap
       [("{" +:+ NS_XSI +:+ "}schemaLocation",
         "http://www.openarchives.org/OAI/2.0/ http://www.openarchives.org/OAI/2.0/OAI-PMH.xsd")]
       None.

Definition request_tree (kw : kwdict) (url : option string) : Tree :=
  TNode (Elem (nsoai "request") [] (request_attrib kw) url) [].

(** The envelope: the root with [responseDate] and [request], and below
    them what the verb adds. *)
Definition envelope_tree (date : string) (kw : kwdict) (url : option string)
    (body : list Tree) : Tree :=
  TNode envelope_elem (leaf (nsoai "responseDate") date :: request_tree kw url :: body).

(** One turn of that loop, on the element. *)
Definition echo_step (e : elem) (item : string * option string) : elem :=
  match item.2 with
  | Some value => elem_set (echo item.1) value e
  | None => e
  end.

Definition compression_children (compressions : pyseq) : list Tree :=
  if decide (compressions ≠ PyList ["identity"])
  then leaf (nsoai "compression") <$> iter_pyseq compressions
  else [].

Definition identify_tree (datetime_to_datestamp : datetime → string)
    (identify : ServerIdentify.t) : Tree :=
  element (nsoai "Identify")
    (leaf (nsoai "repositoryName") (ServerIdentify.repositoryName identify) ::
     leaf (nsoai "baseURL") (ServerIdentify.baseURL identify) ::
     leaf (nsoai "protocolVersion") (ServerIdentify.protocolVersion identify) ::
     (leaf (nsoai "adminEmail") <$> ServerIdentify.adminEmails identify) ++
     leaf (nsoai "earliestDatestamp")
       (datetime_to_datestamp (ServerIdentify.earliestDatestamp identify)) ::
     leaf (nsoai "deletedRecord") (ServerIdentify.deletedRecord identify) ::
     leaf (nsoai "granularity") (ServerIdentify.granularity identify) ::
     compression_children (ServerIdentify.compression identify)).

Definition format_tree (format : string * string * string) : Tree :=
  let '(metadataPrefix, schema, metadataNamespace) := format in
  element (nsoai "metadataFormat")
    [leaf (nsoai "metadataPrefix") metadataPrefix;
     leaf (nsoai "schema") schema;
     leaf (nsoai "metadataNamespace") metadataNamespace].

(** A record of [listRecords], given the fragment that the writer of the
    prefix makes of its metadata. *)
Definition record_tree (datetime_to_datestamp : datetime → string)
    (fragment : Metadata.t → list Tree) (record : Header.t * Metadata.t * About) : Tree :=
  let '(header, metadata, about) := record in
  element (nsoai "record")
    [header_tree datetime_to_datestamp header;
     element (nsoai "metadata") (fragment metadata)].

(** ** The verb operations as one type *)

(** The operations of [XMLTreeServer] that build a document.  ([getRecord]
    is [pass] and returns [None]; the class has no [listSets].) *)
Inductive verb_call : Type :=
  | Identify
  | ListIdentifiers (metadataPrefix from_ until set_ resumptionToken : option string)
  | ListMetadataFormats (identifier : option string)
  | ListRecords (metadataPrefix from_ until set_ resumptionToken : option string).

Definition perform (datetime_to_datestamp : datetime → string) (utcnow : datetime)
    (self : XMLTreeServer.t) (c : verb_call) : M ElementTree :=
  match c with
  | Identify => identify datetime_to_datestamp utcnow self
  | ListIdentifiers p f u s t => listIdentifiers datetime_to_datestamp utcnow self p f u s t
  | ListMetadataFormats i => listMetadataFormats datetime_to_datestamp utcnow self i
  | ListRecords p f u s t => listRecords datetime_to_datestamp utcnow self p f u s t
  end.

Definition verb_of (c : verb_call) : string :=
  match c with
  | Identify => "Identify"
  | ListIdentifiers _ _ _ _ _ => "ListIdentifiers"
  | ListMetadataFormats _ => "ListMetadataFormats"
  | ListRecords _ _ _ _ _ => "ListRecords"
  end.

(** The arguments of the call under their Python names, an omitted one
    being [None]. *)
Definition arguments_of (c : verb_call) : kwdict :=
  match c with
  | Identify => []
  | ListIdentifiers p f u s t =>
      [("from_", f); ("metadataPrefix", p); ("until", u); ("set", s);
       ("resumptionToken", t)]
  | ListMetadataFormats i => [("identifier", i)]
  | ListRecords p f u s t =>
      [("metadataPrefix", p); ("from_", f); ("until", u); ("set", s);
       ("resumptionToken", t)]
  end.

(** The supplied arguments that are not [None], the reserved-word name
    rewritten: what the specification lets [request] echo. *)
Definition echoed (args : kwdict) : list (string * string) :=
  omap (λ '(key, value), pair (echo key) <$> value) args.


Definition method_name (verb : string) : string :=
  match verb with
  | EmptyString => EmptyString
  | String c rest => String (lower_ascii c) rest
  end.


(** ** The contract of a metadata writer *)

(** A writer "appends one namespaced fragment" to the element it is given:
    whether it returns or raises, it has touched nothing else. *)
Definition fragment_writer (w : writer) : Prop :=
  ∀ metadata, ∃ res ks, ∀ element, shapes (w element metadata) element res id ks.

Definition registry_ok (registry : MetadataRegistry) : Prop :=
  ∀ prefix w, _writers registry !! prefix = Some w → fragment_writer w.

(** Only [listRecords] calls a writer. *)
Definition uses_registry (c : verb_call) : Prop :=
  match c with
  | ListRecords _ _ _ _ _ => True
  | _ => False
  end.

(** The [compression] children of an [Identify] element. *)
Definition compression_elements (identify_element : Tree) : list Tree :=
  filter (λ t, tag (root_elem t) = nsoai "compression") (subtrees identify_element).

(** ** Sample data *)

Definition sample_now : datetime := Datetime 2004 1 2 3 4 5 678.

Definition sample_identity (granularity : string) (compression : pyseq)
  : ServerIdentify.t :=
  ServerIdentify.Make "Sample" "http://example.org/oai" "2.0" ["admin@example.org"]
    (Datetime 1999 12 31 0 0 0 0) "no" granularity compression.

Definition sample_header : Header.t :=
  Header.Make "oai:example.org:1" (Datetime 2003 7 9 10 11 12 0) ["a:b"; "a:c"] false.

Definition sample_metadata : Metadata.t :=
  Metadata.Make (<["title" := ["A"]]> (<["creator" := ["B"; "C"]]> ∅)).

(** A backend that returns the given identity and the given records. *)
Definition sample_backend (identity : ServerIdentify.t)
    (records : list (Header.t * Metadata.t * About)) : ServerAPI :=
  {| api_getRecord := λ _ _, Raise NotImplementedError;
     api_identify := Ok identity;
     api_listIdentifiers := λ _, iter_list (fst ∘ fst <$> records);
     api_listMetadataFormats := λ _,
       iter_list [("oai_dc", "http://www.openarchives.org/OAI/2.0/oai_dc.xsd",
                   "http://www.openarchives.org/OAI/2.0/oai_dc/")];
     api_listRecords := λ _, iter_list records;
     api_listSets := λ _, Throw NotImplementedError |}.

Definition sample_registry : MetadataRegistry :=
  {| _writers := {[ "oai_dc" := oai_dc_writer ]} |}.

Definition sample_server (identity : ServerIdentify.t)
    (records : list (Header.t * Metadata.t * About)) : XMLTreeServer.t :=
  XMLTreeServer.Make (sample_backend identity records) sample_registry.

(** A verb operation run against the sample server, on an empty heap. *)
Definition sample_run (identity : ServerIdentify.t)
    (records : list (Header.t * Metadata.t * About)) (c : verb_call)
  : result ElementTree * heap :=
  perform datetime_to_datestamp_spec sample_now (sample_server identity records) c [].

(** The text of [responseDate], the first child of the root. *)
Definition response_date_text (document : option Tree) : option string :=
  document ≫= λ doc, head (subtrees doc) ≫= λ date, text (root_elem date).

(** A heap that holds one element, to hang a header or a fragment on. *)
Definition sample_parent : heap := [(Elem (nsoai "record") [] [] None, [])].

(** ** More sample data *)

(** A backend whose listings yield one item and then raise. *)
Definition sample_broken_backend (identity : ServerIdentify.t) : ServerAPI :=
  {| api_getRecord := λ _ _, Raise NotImplementedError;
     api_identify := Ok identity;
     api_listIdentifiers := λ _, Yield sample_header (Throw (UserError "IOError"));
     api_listMetadataFormats := λ _, Throw (UserError "IOError");
     api_listRecords := λ _,
       Yield (sample_header, sample_metadata, None) (Throw (UserError "IOError"));
     api_listSets := λ _, Throw NotImplementedError |}.


(** ** Namespace declarations below the root *)


(** * Verification *)

(** ** Trees and their layout on the heap *)

Lemma layout_eq b e ks :
  layout b (TNode e ks) = (e, roots (S b) ks) :: layouts (S b) ks.
Proof.
  reflexivity.
Qed.

Lemma length_layout t : ∀ b, length (layout b t) = size t.
Proof.
  induction t as [e ks IH] using Tree_ind. intros b. rewrite layout_eq. simpl. f_equal.
  generalize (S b). induction IH as [|k ks Hk _ IHks]; intros n; simpl; [done|].
  by rewrite length_app, Hk, IHks.
Qed.

Lemma length_layouts ks : ∀ b, length (layouts b ks) = list_sum (map size ks).
Proof.
  induction ks as [|k ks IH]; intros b; simpl; [done|].
  by rewrite length_app, length_layout, IH.
Qed.

Lemma roots_app ks1 ks2 b :
  roots b (ks1 ++ ks2) = roots b ks1 ++ roots (b + list_sum (map size ks1)) ks2.
Proof.
  revert b. induction ks1 as [|k ks1 IH]; intros b; simpl.
  - by rewrite Nat.add_0_r.
  - by rewrite IH, Nat.add_assoc.
Qed.

Lemma layouts_app ks1 ks2 b :
  layouts b (ks1 ++ ks2) = layouts b ks1 ++ layouts (b + list_sum (map size ks1)) ks2.
Proof.
  revert b. induction ks1 as [|k ks1 IH]; intros b; simpl.
  - by rewrite Nat.add_0_r.
  - by rewrite IH, Nat.add_assoc, (assoc_L (++)).
Qed.

Lemma reify_layouts fuel ks :
  Forall (λ t, ∀ fuel pre post, size t ≤ fuel →
            reify fuel (pre ++ layout (length pre) t ++ post) (length pre) = Some t) ks →
  ∀ pre post, list_sum (map size ks) ≤ fuel →
    mapM (reify fuel (pre ++ layouts (length pre) ks ++ post)) (roots (length pre) ks)
    = Some ks.
Proof.
  induction 1 as [|k ks Hk _ IH]; intros pre post Hfuel; simpl in *; [done|].
  rewrite <-(assoc_L (++) (layout _ k)).
  rewrite Hk by lia. simpl.
  specialize (IH (pre ++ layout (length pre) k) post).
  rewrite length_app, length_layout, <-(assoc_L (++) pre) in IH.
  rewrite IH by lia. done.
Qed.

Lemma reify_layout t : ∀ fuel pre post,
  size t ≤ fuel →
  reify fuel (pre ++ layout (length pre) t ++ post) (length pre) = Some t.
Proof.
  induction t as [e ks IH] using Tree_ind. intros fuel pre post Hfuel.
  destruct fuel as [|fuel]; simpl in Hfuel; [lia|].
  rewrite layout_eq. cbn [reify].
  rewrite lookup_app_r by lia. rewrite Nat.sub_diag. simpl.
  pose proof (reify_layouts fuel ks IH (pre ++ [(e, roots (S (length pre)) ks)]) post) as H.
  rewrite length_app in H. simpl in H. rewrite Nat.add_1_r in H.
  rewrite <-(assoc_L (++) pre) in H. simpl in H.
  rewrite H by lia. done.
Qed.

Lemma to_tree_layout pre t post :
  to_tree (pre ++ layout (length pre) t ++ post) (length pre) = Some t.
Proof.
  apply reify_layout. rewrite !length_app, length_layout. lia.
Qed.

(** ** Rules for [shapes] *)

Lemma grafted_length p f ks h :
  length (grafted p f ks h) = length h + list_sum (map size ks).
Proof. unfold grafted. by rewrite length_app, length_alter, length_layouts. Qed.

Lemma grafted_id p h : grafted p id [] h = h.
Proof.
  unfold grafted. simpl. rewrite (right_id_L [] (++)).
  apply list_alter_id. intros [e cs]. simpl. by rewrite (right_id_L [] (++)).
Qed.

Lemma grafted_grafted p f1 f2 ks1 ks2 h :
  p < length h →
  grafted p f2 ks2 (grafted p f1 ks1 h) = grafted p (f2 ∘ f1) (ks1 ++ ks2) h.
Proof.
  intros Hp. unfold grafted at 1. rewrite grafted_length. unfold grafted.
  rewrite alter_app_l by (rewrite length_alter; lia).
  rewrite list_alter_alter_eq, roots_app, layouts_app, (assoc_L (++)).
  f_equal. f_equal. apply list_alter_ext; [|done].
  intros [e cs] _. simpl. by rewrite (assoc_L (++)).
Qed.

Lemma shapes_ext {A} (c : M A) p res f f' ks :
  (∀ e, f e = f' e) → shapes c p res f ks → shapes c p res f' ks.
Proof.
  intros Hf Hc h Hp. rewrite (Hc h Hp). f_equal. unfold grafted. f_equal.
  apply list_alter_ext; [|done]. intros [e cs] _. simpl. by rewrite Hf.
Qed.

Lemma shapes_ret {A} (a : A) p : shapes (mret a) p (Ok a) id [].
Proof. intros h _. by rewrite grafted_id. Qed.

Lemma shapes_raise {A} e p : shapes (raise e : M A) p (Raise e) id [].
Proof. intros h _. by rewrite grafted_id. Qed.

Lemma shapes_bind {A B} (c : M A) (g : A → M B) p a res f1 f2 ks1 ks2 :
  shapes c p (Ok a) f1 ks1 →
  shapes (g a) p res f2 ks2 →
  shapes (c ≫= g) p res (f2 ∘ f1) (ks1 ++ ks2).
Proof.
  intros Hc Hg h Hp. unfold mbind, M_bind. rewrite (Hc h Hp).
  rewrite Hg by (rewrite grafted_length; lia). by rewrite grafted_grafted.
Qed.

Lemma shapes_bind_raise {A B} (c : M A) (g : A → M B) p e f ks :
  shapes c p (Raise e) f ks → shapes (c ≫= g) p (Raise e) f ks.
Proof. intros Hc h Hp. unfold mbind, M_bind. by rewrite (Hc h Hp). Qed.

(** A step that adds children only, followed by the rest. *)
Lemma shapes_seq {A B} (c : M A) (g : A → M B) p a res f ks1 ks2 :
  shapes c p (Ok a) id ks1 →
  shapes (g a) p res f ks2 →
  shapes (c ≫= g) p res f (ks1 ++ ks2).
Proof. intros Hc Hg. eapply shapes_ext; [|by eapply shapes_bind]. done. Qed.

Lemma shapes_lift {A B} (r : result A) (g : A → M B) p res f ks :
  match r with
  | Ok a => shapes (g a) p res f ks
  | Raise e => res = Raise e ∧ (∀ x, f x = x) ∧ ks = []
  end →
  shapes (lift r ≫= g) p res f ks.
Proof.
  destruct r as [a|e].
  - intros Hg h Hp. unfold mbind, M_bind, lift. by apply Hg.
  - intros (-> & Hf & ->). eapply shapes_ext; [intros x; symmetry; apply Hf|].
    intros h Hp. unfold mbind, M_bind, lift. by rewrite grafted_id.
Qed.

Lemma shapes_set {A} (rest : M A) p k v res f ks :
  shapes rest p res f ks →
  shapes (set p k v ;; rest) p res (f ∘ elem_set k v) ks.
Proof.
  intros Hr. eapply shapes_ext; [|eapply (shapes_bind _ _ _ tt _ (elem_set k v) f [] ks); [|done]]; [done|].
  intros h Hp. unfold set, grafted. simpl. rewrite (right_id_L [] (++)). f_equal.
  apply list_alter_ext; [|done]. intros [e cs] _. simpl. by rewrite (right_id_L [] (++)).
Qed.

Lemma shapes_set_text {A} (rest : M A) p s res f ks :
  shapes rest p res f ks →
  shapes (set_text p s ;; rest) p res (f ∘ elem_text s) ks.
Proof.
  intros Hr. eapply shapes_ext; [|eapply (shapes_bind _ _ _ tt _ (elem_text s) f [] ks); [|done]]; [done|].
  intros h Hp. unfold set_text, grafted. simpl. rewrite (right_id_L [] (++)). f_equal.
  apply list_alter_ext; [|done]. intros [e cs] _. simpl. by rewrite (right_id_L [] (++)).
Qed.

(** A child element and everything that is done to it. *)
Lemma shapes_sub {A} (body : ref → M A) p tg (res : ref → result A) f ks :
  (∀ r, shapes (body r) r (res r) f ks) →
  ∀ h, p < length h →
    (SubElement p tg ≫= body) h
    = (res (length h), grafted p id [TNode (f (Elem tg [] [] None)) ks] h).
Proof.
  intros Hb h Hp. unfold mbind, M_bind, SubElement.
  rewrite Hb by (rewrite length_app, length_alter; simpl; lia).
  f_equal. unfold grafted. rewrite !length_app, !length_alter. simpl.
  rewrite alter_app_r_alt by (rewrite length_alter; lia).
  rewrite length_alter, Nat.sub_diag. simpl.
  rewrite Nat.add_1_r, (right_id_L [] (++)), <-(assoc_L (++)). done.
Qed.

Lemma shapes_child {A} (body : ref → M A) p tg res f ks e :
  (∀ r, shapes (body r) r res f ks) →
  f (Elem tg [] [] None) = e →
  shapes (SubElement p tg ≫= body) p res id [TNode e ks].
Proof. intros Hb <- h Hp. by apply (shapes_sub body p tg (λ _, res)). Qed.

Lemma shapes_set_last p k v : shapes (set p k v) p (Ok tt) (elem_set k v) [].
Proof.
  intros h Hp. unfold set, grafted. simpl. rewrite (right_id_L [] (++)). f_equal.
  apply list_alter_ext; [|done]. intros [e cs] _. simpl. by rewrite (right_id_L [] (++)).
Qed.

Lemma shapes_set_text_last p s : shapes (set_text p s) p (Ok tt) (elem_text s) [].
Proof.
  intros h Hp. unfold set_text, grafted. simpl. rewrite (right_id_L [] (++)). f_equal.
  apply list_alter_ext; [|done]. intros [e cs] _. simpl. by rewrite (right_id_L [] (++)).
Qed.

(** A child that only gets its text. *)
Lemma shapes_leaf_last p tg s :
  shapes (e ← SubElement p tg; set_text e s) p (Ok tt) id [leaf tg s].
Proof.
  exact (shapes_child (λ e, set_text e s) p tg (Ok tt) (elem_text s) [] _
           (λ r, shapes_set_text_last r s) eq_refl).
Qed.

Lemma shapes_leaf {A} (rest : M A) p tg s res f ks :
  shapes rest p res f ks →
  shapes (e ← SubElement p tg; set_text e s;; rest) p res f (leaf tg s :: ks).
Proof.
  intros Hr h Hp.
  pose proof (shapes_seq (e ← SubElement p tg; set_text e s) (λ _, rest)
                p tt res f [leaf tg s] ks (shapes_leaf_last p tg s) Hr h Hp) as H.
  etrans; [|exact H]. unfold mbind, M_bind, SubElement, set_text. done.
Qed.

(** The first element of a document and everything that is done to it. *)
Lemma run_Element {A} (body : ref → M A) tg ns (res : ref → result A) f ks e h :
  (∀ r, shapes (body r) r (res r) f ks) →
  f (Elem tg ns [] None) = e →
  (Element tg ns ≫= body) h
  = (res (length h), h ++ layout (length h) (TNode e ks)).
Proof.
  intros Hb <-. unfold mbind, M_bind, Element.
  rewrite Hb by (rewrite length_app; simpl; lia).
  f_equal. unfold grafted. rewrite length_app. simpl.
  rewrite alter_app_r_alt by lia. rewrite Nat.sub_diag. simpl.
  by rewrite Nat.add_1_r, <-(assoc_L (++)).
Qed.

(** Work on the root of the document that was built last. *)
Lemma grafted_root h e ks f ks' :
  grafted (length h) f ks' (h ++ layout (length h) (TNode e ks))
  = h ++ layout (length h) (TNode (f e) (ks ++ ks')).
Proof.
  unfold grafted. rewrite !layout_eq, length_app. simpl.
  rewrite alter_app_r_alt by lia. rewrite Nat.sub_diag. simpl.
  rewrite length_layouts, roots_app, layouts_app, <-(assoc_L (++)). simpl.
  by rewrite !Nat.add_succ_r.
Qed.

Lemma shapes_for_each {A} (l : list A) (body : A → M unit) p F K :
  (∀ x, shapes (body x) p (Ok tt) (F x) (K x)) →
  shapes (for_each l body) p (Ok tt) (λ e, foldl (λ e x, F x e) e l) (flat_map K l).
Proof.
  intros Hb. induction l as [|x l IH]; simpl.
  - apply shapes_ret.
  - eapply shapes_ext; [|eapply shapes_bind; [apply Hb|apply IH]]. done.
Qed.

Lemma shapes_for_each_kids {A} (l : list A) (body : A → M unit) p K :
  (∀ x, shapes (body x) p (Ok tt) id (K x)) →
  shapes (for_each l body) p (Ok tt) id (flat_map K l).
Proof.
  intros Hb. eapply shapes_ext; [|exact (shapes_for_each l body p (λ _, id) K Hb)].
  intros e. simpl. by induction l.
Qed.

Lemma shapes_for_iter {A} (g : pyiter A) (body : A → M unit) p K :
  (∀ x, shapes (body x) p (Ok tt) id (K x)) →
  shapes (for_iter g body) p (iter_end g) id (flat_map K (iter_items g)).
Proof.
  intros Hb. induction g as [|x g IH|e]; simpl.
  - apply shapes_ret.
  - eapply shapes_seq; [apply Hb|apply IH].
  - apply shapes_raise.
Qed.

Lemma flat_map_leaf tg (l : list string) : flat_map (λ x, [leaf tg x]) l = leaf tg <$> l.
Proof. induction l as [|x l IH]; simpl; [done|]. by rewrite IH. Qed.

Lemma shapes_leaves (l : list string) p tg :
  shapes (for_each l (λ x, e ← SubElement p tg; set_text e x)) p (Ok tt) id (leaf tg <$> l).
Proof.
  rewrite <-flat_map_leaf. apply shapes_for_each_kids. intros x. apply shapes_leaf_last.
Qed.

(** ** The helpers of the responder *)

Lemma shapes_outputHeader dts self el hd :
  shapes (_outputHeader dts self el hd) el (Ok tt) id [header_tree dts hd].
Proof.
  unfold _outputHeader, header_tree, element.
  eapply shapes_child;
    [intros r; apply shapes_leaf, shapes_leaf, shapes_leaves|reflexivity].
Qed.

Lemma shapes_oai_dc_writer el md :
  shapes (oai_dc_writer el md) el (Ok tt) id [dc_tree md].
Proof.
  unfold oai_dc_writer, dc_tree.
  eapply shapes_child;
    [intros r; apply shapes_set, shapes_for_each_kids; intros name; apply shapes_leaves
    |reflexivity].
Qed.

Lemma shapes_for_each_attrs {A} (l : list A) (body : A → M unit) p F :
  (∀ x, shapes (body x) p (Ok tt) (F x) []) →
  shapes (for_each l body) p (Ok tt) (λ e, foldl (λ e x, F x e) e l) [].
Proof.
  intros Hb. induction l as [|x l IH]; simpl.
  - apply shapes_ret.
  - eapply shapes_ext; [|exact (shapes_bind _ _ p tt _ _ _ [] [] (Hb x) IH)]. done.
Qed.

(** A step that changes the element only, followed by the rest. *)
Lemma shapes_mod {A B} (c : M A) (g : A → M B) p a res f1 f2 ks :
  shapes c p (Ok a) f1 [] →
  shapes (g a) p res f2 ks →
  shapes (c ≫= g) p res (f2 ∘ f1) ks.
Proof. intros Hc Hg. exact (shapes_bind c g p a res f1 f2 [] ks Hc Hg). Qed.

Lemma foldl_echo_step kw e :
  foldl echo_step e kw
  = Elem (tag e) (nsmap_of e)
         (foldl (λ a '(key, value),
                   match value with
                   | Some value => attr_set (echo key) value a
                   | None => a
                   end) (attrib e) kw)
         (text e).
Proof.
  revert e. induction kw as [|[k [v|]] kw IH]; intros e; simpl.
  - by destruct e.
  - by rewrite IH.
  - by rewrite IH.
Qed.

Lemma shapes_request_attrs kw r :
  shapes (for_each kw (λ '(key, value),
            match value with
            | Some value =>
                let key := if decide (key = "from_") then "from" else key in
                set r key value
            | None => mret tt
            end)) r (Ok tt) (λ e, foldl echo_step e kw) [].
Proof.
  apply (shapes_for_each_attrs kw _ r (λ x e, echo_step e x)).
  intros [k [v|]]; unfold echo_step; simpl.
  - apply shapes_set_last.
  - apply shapes_ret.
Qed.

Lemma run_outputEnvelope dts now self kw h :
  _outputEnvelope dts now self kw h =
  match api_identify (XMLTreeServer._server self) with
  | Ok ident =>
      (Ok (MkElementTree (length h)),
       h ++ layout (length h)
              (envelope_tree (dts (replace_microsecond now 0)) kw
                 (Some (ServerIdentify.baseURL ident)) []))
  | Raise e =>
      (Raise e,
       h ++ layout (length h)
              (envelope_tree (dts (replace_microsecond now 0)) kw None []))
  end.
Proof.
  unfold _outputEnvelope, envelope_tree, request_tree, request_attrib.
  destruct (api_identify (XMLTreeServer._server self)) as [ident|e].
  - eapply (run_Element _ _ _ (λ r, Ok (MkElementTree r))).
    { intros r. apply shapes_set, shapes_leaf.
      eapply shapes_child.
      - intros q. eapply shapes_mod; [apply shapes_request_attrs|].
        apply shapes_lift, shapes_set_text, shapes_ret.
      - simpl. by rewrite foldl_echo_step. }
    reflexivity.
  - eapply (run_Element _ _ _ (λ r, Raise e)).
    { intros r. apply shapes_set, shapes_leaf.
      eapply shapes_child.
      - intros q. eapply shapes_mod; [apply shapes_request_attrs|].
        by apply shapes_lift.
      - simpl. by rewrite foldl_echo_step. }
    reflexivity.
Qed.

(** ** The verb operations *)

Lemma shapes_kids {A} (c : M A) p res f ks ks' :
  shapes c p res f ks → ks = ks' → shapes c p res f ks'.
Proof. by intros H <-. Qed.

Lemma run_on_root {A} (c : M A) h e ks res f ks' :
  shapes c (length h) res f ks' →
  c (h ++ layout (length h) (TNode e ks))
  = (res, h ++ layout (length h) (TNode (f e) (ks ++ ks'))).
Proof.
  intros Hc. rewrite Hc by (rewrite length_app, length_layout; simpl; lia).
  by rewrite grafted_root.
Qed.

(** Every verb begins with the envelope and goes on below its root. *)
Lemma run_verb {A} dts now self kw (rest : ElementTree → M A) h res body :
  (∀ r ident, api_identify (XMLTreeServer._server self) = Ok ident →
              shapes (rest (MkElementTree r)) r (res r ident) id (body ident)) →
  (_outputEnvelope dts now self kw ≫= rest) h =
  match api_identify (XMLTreeServer._server self) with
  | Ok ident =>
      (res (length h) ident,
       h ++ layout (length h)
              (envelope_tree (dts (replace_microsecond now 0)) kw
                 (Some (ServerIdentify.baseURL ident)) (body ident)))
  | Raise e =>
      (Raise e,
       h ++ layout (length h)
              (envelope_tree (dts (replace_microsecond now 0)) kw None []))
  end.
Proof.
  intros Hrest. unfold mbind, M_bind. rewrite run_outputEnvelope.
  destruct (api_identify (XMLTreeServer._server self)) as [ident|e] eqn:Hident; [|done].
  exact (run_on_root _ h envelope_elem [_; _] _ id _ (Hrest (length h) ident eq_refl)).
Qed.

Lemma shapes_for_iter_ret {A B} (g : pyiter A) (body : A → M unit) (b : B) p K :
  (∀ x, shapes (body x) p (Ok tt) id (K x)) →
  shapes (for_iter g body ;; mret b) p
         (match iter_end g with Ok _ => Ok b | Raise e => Raise e end)
         id (flat_map K (iter_items g)).
Proof.
  intros Hb. pose proof (shapes_for_iter g body p K Hb) as H.
  destruct (iter_end g) as [[]|e].
  - eapply shapes_kids; [eapply shapes_seq; [exact H|apply shapes_ret]|].
    by rewrite (right_id_L [] (++)).
  - by apply shapes_bind_raise.
Qed.

Lemma flat_map_singleton {A B} (f : A → B) (l : list A) :
  flat_map (λ x, [f x]) l = f <$> l.
Proof. induction l as [|x l IH]; simpl; [done|]. by rewrite IH. Qed.

Lemma shapes_compressions p c :
  shapes (if decide (c ≠ PyList ["identity"])
          then for_each (iter_pyseq c) (λ compression,
                 e_compression ← SubElement p (nsoai "compression");
                 set_text e_compression compression)
          else mret tt) p (Ok tt) id (compression_children c).
Proof.
  unfold compression_children. case_decide.
  - apply shapes_leaves.
  - apply shapes_ret.
Qed.

Lemma run_identify dts now self h :
  identify dts now self h =
  match api_identify (XMLTreeServer._server self) with
  | Ok ident =>
      (Ok (MkElementTree (length h)),
       h ++ layout (length h)
              (envelope_tree (dts (replace_microsecond now 0))
                 [("verb", Some "Identify")]
                 (Some (ServerIdentify.baseURL ident)) [identify_tree dts ident]))
  | Raise e =>
      (Raise e,
       h ++ layout (length h)
              (envelope_tree (dts (replace_microsecond now 0))
                 [("verb", Some "Identify")] None []))
  end.
Proof.
  unfold identify.
  apply (run_verb dts now self _ _ h (λ r _, Ok (MkElementTree r))
           (λ ident, [identify_tree dts ident])).
  intros r ident Hident. rewrite Hident. apply shapes_lift.
  unfold identify_tree, element.
  eapply (shapes_child _ _ _ _ id); [intros q|reflexivity].
  do 3 apply shapes_leaf.
  eapply shapes_seq; [apply shapes_leaves|].
  do 3 apply shapes_leaf.
  eapply shapes_kids; [eapply shapes_seq; [apply shapes_compressions|apply shapes_ret]|].
  by rewrite (right_id_L [] (++)).
Qed.

Lemma run_listIdentifiers dts now self p f u s t h :
  let kw := [("verb", Some "ListIdentifiers"); ("from_", f); ("metadataPrefix", p);
             ("until", u); ("set", s); ("resumptionToken", t)] in
  let g := api_listIdentifiers (XMLTreeServer._server self) (listing_kw p f u s t) in
  listIdentifiers dts now self p f u s t h =
  match api_identify (XMLTreeServer._server self) with
  | Ok ident =>
      (match iter_end g with Ok _ => Ok (MkElementTree (length h)) | Raise e => Raise e end,
       h ++ layout (length h)
              (envelope_tree (dts (replace_microsecond now 0)) kw
                 (Some (ServerIdentify.baseURL ident))
                 [element (nsoai "ListIdentifiers") (header_tree dts <$> iter_items g)]))
  | Raise e =>
      (Raise e,
       h ++ layout (length h) (envelope_tree (dts (replace_microsecond now 0)) kw None []))
  end.
Proof.
  intros kw g. unfold listIdentifiers.
  apply (run_verb dts now self _ _ h
           (λ r _, match iter_end g with Ok _ => Ok (MkElementTree r) | Raise e => Raise e end)
           (λ _, [element (nsoai "ListIdentifiers") (header_tree dts <$> iter_items g)])).
  intros r ident _. unfold element.
  eapply (shapes_child _ _ _ _ id); [intros q|reflexivity].
  rewrite <-flat_map_singleton. apply shapes_for_iter_ret.
  intros hd. apply shapes_outputHeader.
Qed.

Lemma run_listMetadataFormats dts now self i h :
  let kw := [("verb", Some "ListMetadataFormats"); ("identifier", i)] in
  let g := api_listMetadataFormats (XMLTreeServer._server self)
             (if i is Some _ then <["identifier" := i]> ∅ else ∅) in
  listMetadataFormats dts now self i h =
  match api_identify (XMLTreeServer._server self) with
  | Ok ident =>
      (match iter_end g with Ok _ => Ok (MkElementTree (length h)) | Raise e => Raise e end,
       h ++ layout (length h)
              (envelope_tree (dts (replace_microsecond now 0)) kw
                 (Some (ServerIdentify.baseURL ident))
                 [element (nsoai "ListMetadataFormats") (format_tree <$> iter_items g)]))
  | Raise e =>
      (Raise e,
       h ++ layout (length h) (envelope_tree (dts (replace_microsecond now 0)) kw None []))
  end.
Proof.
  intros kw g. unfold listMetadataFormats.
  apply (run_verb dts now self _ _ h
           (λ r _, match iter_end g with Ok _ => Ok (MkElementTree r) | Raise e => Raise e end)
           (λ _, [element (nsoai "ListMetadataFormats") (format_tree <$> iter_items g)])).
  intros r ident _. unfold element.
  eapply (shapes_child _ _ _ _ id); [intros q|reflexivity].
  rewrite <-flat_map_singleton. apply shapes_for_iter_ret.
  intros [[prefix schema] namespace]. unfold format_tree, element.
  eapply (shapes_child _ _ _ _ id); [intros q'|reflexivity].
  apply shapes_leaf, shapes_leaf, shapes_leaf_last.
Qed.

Lemma shapes_outputMetadata_unregistered self el prefix md :
  registered (XMLTreeServer._metadata_registry self) prefix = None →
  shapes (_outputMetadata self el prefix md) el (Raise UnsupportedMetadataFormat) id
         [element (nsoai "metadata") []].
Proof.
  intros Hreg. unfold _outputMetadata, writeMetadata. rewrite Hreg.
  eapply (shapes_child _ _ _ _ id); [intros q|reflexivity]. apply shapes_raise.
Qed.

Lemma shapes_outputMetadata_registered self el prefix md w res ks :
  registered (XMLTreeServer._metadata_registry self) prefix = Some w →
  (∀ element, shapes (w element md) element res id ks) →
  shapes (_outputMetadata self el prefix md) el res id [element (nsoai "metadata") ks].
Proof.
  intros Hreg Hw. unfold _outputMetadata, writeMetadata. rewrite Hreg.
  eapply (shapes_child _ _ _ _ id); [intros q|reflexivity]. apply Hw.
Qed.

Lemma shapes_outputMetadata self prefix md :
  registry_ok (XMLTreeServer._metadata_registry self) →
  ∃ res ks, ∀ el, shapes (_outputMetadata self el prefix md) el res id
                    [element (nsoai "metadata") ks].
Proof.
  intros Hok.
  destruct (registered (XMLTreeServer._metadata_registry self) prefix) as [w|] eqn:Hreg.
  - destruct prefix as [p|]; [simpl in Hreg|done].
    destruct (Hok p w Hreg md) as (res & ks & Hw).
    exists res, ks. intros el. by eapply shapes_outputMetadata_registered.
  - exists (Raise UnsupportedMetadataFormat), []. intros el.
    by apply shapes_outputMetadata_unregistered.
Qed.

(** One turn of the loop of [listRecords]. *)
Lemma shapes_record dts self prefix hd md :
  registry_ok (XMLTreeServer._metadata_registry self) →
  ∃ res ks, ∀ q,
    shapes (e_record ← SubElement q (nsoai "record");
            _outputHeader dts self e_record hd;;
            _outputMetadata self e_record prefix md) q res id
           [element (nsoai "record") [header_tree dts hd; element (nsoai "metadata") ks]].
Proof.
  intros Hok. destruct (shapes_outputMetadata self prefix md Hok) as (res & ks & Hm).
  exists res, ks. intros q. unfold element at 1.
  eapply (shapes_child _ _ _ _ id); [intros r|reflexivity].
  eapply (shapes_seq _ _ _ tt _ _ [_] [_]); [apply shapes_outputHeader|apply Hm].
Qed.

Lemma shapes_records dts self prefix (g : pyiter (Header.t * Metadata.t * About)) :
  registry_ok (XMLTreeServer._metadata_registry self) →
  ∃ res ks, ∀ q,
    shapes (for_iter g (λ '(header, metadata, about),
              e_record ← SubElement q (nsoai "record");
              _outputHeader dts self e_record header;;
              _outputMetadata self e_record prefix metadata)) q res id ks.
Proof.
  intros Hok. induction g as [|[[hd md] about] g (res & ks & IH)|e].
  - exists (Ok tt), []. intros q. apply shapes_ret.
  - destruct (shapes_record dts self prefix hd md Hok) as ([[]|e] & ks1 & H1).
    + exists res, ([element (nsoai "record")
                      [header_tree dts hd; element (nsoai "metadata") ks1]] ++ ks).
      intros q. exact (shapes_seq _ _ q tt res id [_] ks (H1 q) (IH q)).
    + eexists (Raise e), _. intros q. simpl. apply shapes_bind_raise, H1.
  - exists (Raise e), []. intros q. apply shapes_raise.
Qed.

Lemma run_listRecords dts now self p f u s t h :
  registry_ok (XMLTreeServer._metadata_registry self) →
  let kw := [("verb", Some "ListRecords"); ("metadataPrefix", p); ("from_", f);
             ("until", u); ("set", s); ("resumptionToken", t)] in
  ∃ (res : result unit) ks,
  listRecords dts now self p f u s t h =
  match api_identify (XMLTreeServer._server self) with
  | Ok ident =>
      (match res with Ok _ => Ok (MkElementTree (length h)) | Raise e => Raise e end,
       h ++ layout (length h)
              (envelope_tree (dts (replace_microsecond now 0)) kw
                 (Some (ServerIdentify.baseURL ident))
                 [element (nsoai "ListRecords") ks]))
  | Raise e =>
      (Raise e,
       h ++ layout (length h) (envelope_tree (dts (replace_microsecond now 0)) kw None []))
  end.
Proof.
  intros Hok kw. unfold listRecords.
  destruct (shapes_records dts self p
              (api_listRecords (XMLTreeServer._server self) (listing_kw p f u s t)) Hok)
    as (res & ks & Hloop).
  exists res, ks.
  apply (run_verb dts now self _ _ h
           (λ r _, match res with Ok _ => Ok (MkElementTree r) | Raise e => Raise e end)
           (λ _, [element (nsoai "ListRecords") ks])).
  intros r ident _. unfold element.
  eapply (shapes_child _ _ _ _ id); [intros q|reflexivity].
  destruct res as [[]|e].
  - eapply shapes_kids; [eapply shapes_seq; [apply Hloop|apply shapes_ret]|].
    by rewrite (right_id_L [] (++)).
  - apply shapes_bind_raise, Hloop.
Qed.

Lemma to_tree_layout_end pre t :
  to_tree (pre ++ layout (length pre) t) (length pre) = Some t.
Proof.
  pose proof (to_tree_layout pre t []) as H. by rewrite (right_id_L [] (++)) in H.
Qed.

Lemma request_attrib_verb c :
  request_attrib (("verb", Some (verb_of c)) :: arguments_of c)
  = ("verb", verb_of c) :: echoed (arguments_of c).
Proof.
  destruct c as [|[p|] [f|] [u|] [s|] [t|]|[i|]|[p|] [f|] [u|] [s|] [t|]]; reflexivity.
Qed.



(** What a verb operation that returns has built: the envelope, echoing the
    verb and the arguments, and one element named after the verb. *)
Lemma perform_document dts now self c h et h' :
  (uses_registry c → registry_ok (XMLTreeServer._metadata_registry self)) →
  perform dts now self c h = (Ok et, h') →
  ∃ ident ks,
    api_identify (XMLTreeServer._server self) = Ok ident ∧
    et = MkElementTree (length h) ∧
    h' = h ++ layout (length h)
           (envelope_tree (dts (replace_microsecond now 0))
              (("verb", Some (verb_of c)) :: arguments_of c)
              (Some (ServerIdentify.baseURL ident))
              [element (nsoai (verb_of c)) ks]) ∧
    (c = Identify → element (nsoai "Identify") ks = identify_tree dts ident).
Proof.
  intros Hok Hrun.
  pose proof (f_equal fst Hrun) as Hfst. pose proof (f_equal snd Hrun) as Hsnd.
  clear Hrun. cbn [fst snd] in Hfst, Hsnd.
  destruct c as [|p f u s t|i|p f u s t]; cbn [perform] in Hfst, Hsnd.
  - rewrite run_identify in Hfst, Hsnd.
    destruct (api_identify (XMLTreeServer._server self)) as [ident|e]; [|done].
    cbn [fst snd] in Hfst, Hsnd. injection Hfst as <-. subst h'.
    eexists ident, _. split_and!; [done|done|reflexivity|done].
  - rewrite run_listIdentifiers in Hfst, Hsnd.
    destruct (api_identify (XMLTreeServer._server self)) as [ident|e]; [|done].
    destruct (iter_end _) as [[]|e]; [|done].
    cbn [fst snd] in Hfst, Hsnd. injection Hfst as <-. subst h'.
    eexists ident, _. split_and!; [done|done|reflexivity|done].
  - rewrite run_listMetadataFormats in Hfst, Hsnd.
    destruct (api_identify (XMLTreeServer._server self)) as [ident|e]; [|done].
    destruct (iter_end _) as [[]|e]; [|done].
    cbn [fst snd] in Hfst, Hsnd. injection Hfst as <-. subst h'.
    eexists ident, _. split_and!; [done|done|reflexivity|done].
  - destruct (run_listRecords dts now self p f u s t h (Hok I)) as (res & ks & Heq).
    rewrite Heq in Hfst, Hsnd.
    destruct (api_identify (XMLTreeServer._server self)) as [ident|e]; [|done].
    destruct res as [[]|e]; [|done].
    cbn [fst snd] in Hfst, Hsnd. injection Hfst as <-. subst h'.
    eexists ident, _. split_and!; [done|done|reflexivity|done].
Qed.

(** [listRecords] with a writer that always returns: every record gets its
    header and, under [metadata], the fragment of the writer. *)
Lemma run_listRecords_writer dts now self p f u s t h w fragment :
  registered (XMLTreeServer._metadata_registry self) p = Some w →
  (∀ md el, shapes (w el md) el (Ok tt) id (fragment md)) →
  let kw := [("verb", Some "ListRecords"); ("metadataPrefix", p); ("from_", f);
             ("until", u); ("set", s); ("resumptionToken", t)] in
  let g := api_listRecords (XMLTreeServer._server self) (listing_kw p f u s t) in
  listRecords dts now self p f u s t h =
  match api_identify (XMLTreeServer._server self) with
  | Ok ident =>
      (match iter_end g with Ok _ => Ok (MkElementTree (length h)) | Raise e => Raise e end,
       h ++ layout (length h)
              (envelope_tree (dts (replace_microsecond now 0)) kw
                 (Some (ServerIdentify.baseURL ident))
                 [element (nsoai "ListRecords")
                    (record_tree dts fragment <$> iter_items g)]))
  | Raise e =>
      (Raise e,
       h ++ layout (length h) (envelope_tree (dts (replace_microsecond now 0)) kw None []))
  end.
Proof.
  intros Hreg Hw kw g. unfold listRecords.
  apply (run_verb dts now self _ _ h
           (λ r _, match iter_end g with Ok _ => Ok (MkElementTree r) | Raise e => Raise e end)
           (λ _, [element (nsoai "ListRecords")
                    (record_tree dts fragment <$> iter_items g)])).
  intros r ident _. unfold element at 1.
  eapply (shapes_child _ _ _ _ id); [intros q|reflexivity].
  rewrite <-flat_map_singleton. apply shapes_for_iter_ret.
  intros [[hd md] about]. unfold record_tree, element at 1.
  eapply (shapes_child _ _ _ _ id); [intros q'|reflexivity].
  eapply (shapes_seq _ _ _ tt _ _ [_] [_]); [apply shapes_outputHeader|].
  by eapply shapes_outputMetadata_registered.
Qed.

(** The verb operations return a document whenever the backend does its
    part: [identify] returns, the listing it is asked for ends without an
    exception and, for [listRecords], the prefix has a writer that always
    returns. *)
Lemma perform_returns dts now self c h ident :
  api_identify (XMLTreeServer._server self) = Ok ident →
  match c with
  | Identify => True
  | ListIdentifiers p f u s t =>
      iter_end (api_listIdentifiers (XMLTreeServer._server self) (listing_kw p f u s t))
      = Ok tt
  | ListMetadataFormats i =>
      iter_end (api_listMetadataFormats (XMLTreeServer._server self)
                  (if i is Some _ then <["identifier" := i]> ∅ else ∅))
      = Ok tt
  | ListRecords p f u s t =>
      iter_end (api_listRecords (XMLTreeServer._server self) (listing_kw p f u s t))
      = Ok tt ∧
      ∃ w fragment,
        registered (XMLTreeServer._metadata_registry self) p = Some w ∧
        ∀ md el, shapes (w el md) el (Ok tt) id (fragment md)
  end →
  ∃ h', perform dts now self c h = (Ok (MkElementTree (length h)), h').
Proof.
  intros Hident Hc. destruct c as [|p f u s t|i|p f u s t]; cbn [perform].
  - rewrite run_identify, Hident. by eexists.
  - rewrite run_listIdentifiers, Hident, Hc. by eexists.
  - rewrite run_listMetadataFormats, Hident, Hc. by eexists.
  - destruct Hc as (Hend & w & fragment & Hreg & Hw).
    rewrite (run_listRecords_writer dts now self p f u s t h w fragment Hreg Hw).
    rewrite Hident, Hend. by eexists.
Qed.

(** With [oai_dc_writer] registered under the prefix, the records of
    [listRecords] carry the Dublin Core fragment. *)
Lemma run_listRecords_oai_dc dts now self p f u s t h ident et h' :
  registered (XMLTreeServer._metadata_registry self) p = Some oai_dc_writer →
  api_identify (XMLTreeServer._server self) = Ok ident →
  listRecords dts now self p f u s t h = (Ok et, h') →
  ∃ root date request,
    to_tree h' (getroot et)
    = Some (TNode root
              [date; request;
               element (nsoai "ListRecords")
                 (record_tree dts (λ md, [dc_tree md]) <$>
                  iter_items (api_listRecords (XMLTreeServer._server self)
                                (listing_kw p f u s t)))]).
Proof.
  intros Hreg Hident.
  rewrite (run_listRecords_writer dts now self p f u s t h oai_dc_writer
             (λ md, [dc_tree md]) Hreg (λ md el, shapes_oai_dc_writer el md)).
  rewrite Hident. intros [Hres <-]%pair_equal_spec.
  destruct (iter_end _) as [[]|e]; [|done]. injection Hres as <-.
  eexists _, _, _. apply to_tree_layout_end.
Qed.

(** ** The envelope of every response *)


(** C2, as amended.  Whenever a verb operation returns a document, the
    attributes of its [request] element are the attribute [verb], holding
    the name of the verb, together with exactly the supplied arguments that
    are not [None], [from_] echoed as [from]; and the text of [request] is
    the base URL of the identity that the backend returns. *)
Theorem request_echoes_verb_and_arguments dts now self c h et h' :
  (uses_registry c → registry_ok (XMLTreeServer._metadata_registry self)) →
  perform dts now self c h = (Ok et, h') →
  ∃ ident root date request result,
    api_identify (XMLTreeServer._server self) = Ok ident ∧
    to_tree h' (getroot et) = Some (TNode root [date; TNode request []; result]) ∧
    tag request = nsoai "request" ∧
    attrib request ≡ₚ ("verb", verb_of c) :: echoed (arguments_of c) ∧
    text request = Some (ServerIdentify.baseURL ident).
Proof.
  intros Hok Hrun.
  destruct (perform_document dts now self c h et h' Hok Hrun)
    as (ident & ks & Hident & -> & -> & _).
  eexists ident, _, _, _, _. split; [done|]. split; [apply to_tree_layout_end|].
  cbn [attrib tag text]. by rewrite request_attrib_verb.
Qed.

(** C5, as amended.  Whenever a verb operation returns a document, the text
    of [responseDate] is [datetime_to_datestamp] of the reading of the UTC
    clock with its microseconds set to zero; the granularity that the
    repository declares has no part in it. *)
Theorem responseDate_is_truncated_now dts now self c h et h' :
  (uses_registry c → registry_ok (XMLTreeServer._metadata_registry self)) →
  perform dts now self c h = (Ok et, h') →
  ∃ root request result,
    to_tree h' (getroot et)
    = Some (TNode root
              [leaf (nsoai "responseDate") (dts (replace_microsecond now 0));
               request; result]).
Proof.
  intros Hok Hrun.
  destruct (perform_document dts now self c h et h' Hok Hrun)
    as (ident & ks & _ & -> & -> & _).
  eexists _, _, _. apply to_tree_layout_end.
Qed.

Lemma sample_registry_ok : registry_ok sample_registry.
Proof.
  intros prefix w Hw. unfold sample_registry in Hw. simpl in Hw.
  apply lookup_singleton_Some in Hw as [_ <-].
  intros md. exists (Ok tt), [dc_tree md]. intros el. apply shapes_oai_dc_writer.
Qed.


Lemma request_echoes_verb_and_arguments_witness :
  ((uses_registry (ListIdentifiers (Some "oai_dc") (Some "2003-01-01") None (Some "a") None) →
    registry_ok sample_registry) ∧
   sample_run (sample_identity "YYYY-MM-DD" (PyList ["gzip"]))
     [(sample_header, sample_metadata, None)]
     (ListIdentifiers (Some "oai_dc") (Some "2003-01-01") None (Some "a") None)
   = (Ok (MkElementTree 0),
      (sample_run (sample_identity "YYYY-MM-DD" (PyList ["gzip"]))
         [(sample_header, sample_metadata, None)]
         (ListIdentifiers (Some "oai_dc") (Some "2003-01-01") None (Some "a") None)).2)) ∧
  ∃ ident root date request result,
    Ok (sample_identity "YYYY-MM-DD" (PyList ["gzip"])) = Ok ident ∧
    to_tree (sample_run (sample_identity "YYYY-MM-DD" (PyList ["gzip"]))
               [(sample_header, sample_metadata, None)]
               (ListIdentifiers (Some "oai_dc") (Some "2003-01-01") None (Some "a") None)).2 0
    = Some (TNode root [date; TNode request []; result]) ∧
    tag request = nsoai "request" ∧
    attrib request ≡ₚ
      [("verb", "ListIdentifiers"); ("from", "2003-01-01");
       ("metadataPrefix", "oai_dc"); ("set", "a")] ∧
    text request = Some (ServerIdentify.baseURL ident).
Proof.
  assert (Hrun : sample_run (sample_identity "YYYY-MM-DD" (PyList ["gzip"]))
                   [(sample_header, sample_metadata, None)]
                   (ListIdentifiers (Some "oai_dc") (Some "2003-01-01") None (Some "a") None)
                 = (Ok (MkElementTree 0),
                    (sample_run (sample_identity "YYYY-MM-DD" (PyList ["gzip"]))
                       [(sample_header, sample_metadata, None)]
                       (ListIdentifiers (Some "oai_dc") (Some "2003-01-01") None
                          (Some "a") None)).2))
    by (vm_compute; reflexivity).
  split; [split; [intros _; apply sample_registry_ok|exact Hrun]|].
  exact (request_echoes_verb_and_arguments datetime_to_datestamp_spec sample_now
           (sample_server (sample_identity "YYYY-MM-DD" (PyList ["gzip"]))
              [(sample_header, sample_metadata, None)])
           _ [] _ _ (λ _, sample_registry_ok) Hrun).
Defined.

(** C2, as stated, fails: [identify()] is given no argument at all, and its
    [request] element carries the attribute [verb]. *)
Lemma request_attributes_counterexample :
  ∃ root date request result,
    to_tree (sample_run (sample_identity "YYYY-MM-DD" (PyList ["gzip"])) [] Identify).2 0
    = Some (TNode root [date; TNode request []; result]) ∧
    attrib request = [("verb", "Identify")] ∧
    echoed (arguments_of Identify) = [] ∧
    ¬ attrib request ≡ₚ echoed (arguments_of Identify).
Proof.
  eexists _, _, _, _. split; [vm_compute; reflexivity|].
  split; [reflexivity|]. split; [reflexivity|].
  intros Hperm. apply Permutation_length in Hperm. discriminate Hperm.
Qed.

Lemma responseDate_is_truncated_now_witness :
  ((uses_registry Identify → registry_ok sample_registry) ∧
   sample_run (sample_identity "YYYY-MM-DD" (PyList ["gzip"])) [] Identify
   = (Ok (MkElementTree 0),
      (sample_run (sample_identity "YYYY-MM-DD" (PyList ["gzip"])) [] Identify).2)) ∧
  ∃ root request result,
    to_tree (sample_run (sample_identity "YYYY-MM-DD" (PyList ["gzip"])) [] Identify).2 0
    = Some (TNode root
              [leaf (nsoai "responseDate") "2004-01-02T03:04:05Z"; request; result]).
Proof.
  assert (Hrun : sample_run (sample_identity "YYYY-MM-DD" (PyList ["gzip"])) [] Identify
                 = (Ok (MkElementTree 0),
                    (sample_run (sample_identity "YYYY-MM-DD" (PyList ["gzip"])) []
                       Identify).2))
    by (vm_compute; reflexivity).
  split; [split; [intros _; apply sample_registry_ok|exact Hrun]|].
  exact (responseDate_is_truncated_now datetime_to_datestamp_spec sample_now
           (sample_server (sample_identity "YYYY-MM-DD" (PyList ["gzip"])) [])
           _ [] _ _ (λ _, sample_registry_ok) Hrun).
Defined.

Lemma response_date_text_identify dts now self h ident :
  api_identify (XMLTreeServer._server self) = Ok ident →
  response_date_text (to_tree (identify dts now self h).2 (length h))
  = Some (dts (replace_microsecond now 0)).
Proof.
  intros Hident. rewrite run_identify, Hident. cbn [snd].
  by rewrite to_tree_layout_end.
Qed.

(** C5, as stated, fails.  A repository that declares day granularity gets
    the same [responseDate] as one that declares second granularity: with
    the formatter of the specification it is [2004-01-02T03:04:05Z] where
    the day granularity would give [2004-01-02]; and no formatter whatever
    can follow the declared granularity on both repositories. *)
Lemma responseDate_granularity_counterexample :
  (response_date_text
     (to_tree (sample_run (sample_identity "YYYY-MM-DD" (PyList ["gzip"])) [] Identify).2 0)
   = Some "2004-01-02T03:04:05Z" ∧
   datestamp_per_granularity "YYYY-MM-DD" (replace_microsecond sample_now 0)
   = "2004-01-02") ∧
  ∀ dts : datetime → string,
    ¬ (∀ granularity,
         response_date_text
           (to_tree (perform dts sample_now
                       (sample_server (sample_identity granularity (PyList ["gzip"])) [])
                       Identify []).2 0)
         = Some (datestamp_per_granularity granularity
                   (replace_microsecond sample_now 0))).
Proof.
  split; [split; vm_compute; reflexivity|].
  intros dts Hall.
  pose proof (Hall "YYYY-MM-DD") as Hday.
  pose proof (Hall "YYYY-MM-DDThh:mm:ssZ") as Hsec.
  cbn [perform] in Hday, Hsec.
  pose proof (response_date_text_identify dts sample_now
                (sample_server (sample_identity "YYYY-MM-DD" (PyList ["gzip"])) []) []
                (sample_identity "YYYY-MM-DD" (PyList ["gzip"])) eq_refl) as Eday.
  pose proof (response_date_text_identify dts sample_now
                (sample_server (sample_identity "YYYY-MM-DDThh:mm:ssZ" (PyList ["gzip"])) [])
                [] (sample_identity "YYYY-MM-DDThh:mm:ssZ" (PyList ["gzip"])) eq_refl)
    as Esec.
  cbn [length] in Eday, Esec. rewrite Eday in Hday. rewrite Esec in Hsec.
  rewrite Hday in Hsec. vm_compute in Hsec. discriminate Hsec.
Qed.

(** ** Identify and its compressions *)

Lemma filter_leaves_other tg tg' (l : list string) :
  tg ≠ tg' →
  filter (λ t, tag (root_elem t) = tg') (leaf tg <$> l) = [].
Proof.
  intros Hne. induction l as [|x l IH]; [done|].
  rewrite fmap_cons, filter_cons_False; [exact IH|]. simpl. congruence.
Qed.

Lemma filter_leaves_same tg (l : list string) :
  filter (λ t, tag (root_elem t) = tg) (leaf tg <$> l) = leaf tg <$> l.
Proof.
  induction l as [|x l IH]; [done|].
  rewrite fmap_cons, filter_cons_True by done. by rewrite IH.
Qed.

Lemma compression_elements_identify dts ident :
  compression_elements (identify_tree dts ident)
  = compression_children (ServerIdentify.compression ident).
Proof.
  unfold compression_elements, identify_tree, element. cbn [subtrees].
  rewrite !filter_cons_False by (simpl; discriminate).
  rewrite filter_app, filter_leaves_other by discriminate.
  rewrite !filter_cons_False by (simpl; discriminate).
  unfold compression_children. case_decide; [|done].
  by rewrite filter_leaves_same.
Qed.

(** What [identify] returns when the backend gives an identity. *)
Lemma identify_compression dts now self h ident :
  api_identify (XMLTreeServer._server self) = Ok ident →
  ∃ h' root date request result,
    identify dts now self h = (Ok (MkElementTree (length h)), h') ∧
    to_tree h' (length h) = Some (TNode root [date; request; result]) ∧
    tag (root_elem result) = nsoai "Identify" ∧
    compression_elements result
    = compression_children (ServerIdentify.compression ident).
Proof.
  intros Hident. rewrite run_identify, Hident.
  eexists _, _, _, _, _. split; [done|]. split; [apply to_tree_layout_end|].
  split; [done|]. apply compression_elements_identify.
Qed.

(** C3, as amended.  When the backend returns an identity whose compression
    is the list [l], the [Identify] element has no [compression] child if
    [l] is exactly [["identity"]], and otherwise one [compression] child
    per entry of [l], in the order of [l]; so it has none if and only if
    [l] is [["identity"]] or is empty. *)
Theorem identify_compression_list dts now self h ident l :
  api_identify (XMLTreeServer._server self) = Ok ident →
  ServerIdentify.compression ident = PyList l →
  ∃ h' root date request result,
    identify dts now self h = (Ok (MkElementTree (length h)), h') ∧
    to_tree h' (length h) = Some (TNode root [date; request; result]) ∧
    tag (root_elem result) = nsoai "Identify" ∧
    compression_elements result
    = (if decide (l = ["identity"]) then [] else leaf (nsoai "compression") <$> l) ∧
    (compression_elements result = [] ↔ l = ["identity"] ∨ l = []).
Proof.
  intros Hident Hl.
  destruct (identify_compression dts now self h ident Hident)
    as (h' & root & date & request & result & Hrun & Htree & Htag & Hc).
  exists h', root, date, request, result. split_and!; [done..| |].
  - rewrite Hc, Hl. unfold compression_children. simpl.
    repeat case_decide; congruence.
  - rewrite Hc, Hl. unfold compression_children. simpl.
    case_decide as Hne.
    + split.
      * intros Hnil. right. by apply fmap_nil_inv in Hnil.
      * intros [->| ->]; [done|done].
    + split; [|done]. intros _. left. congruence.
Qed.

Lemma identify_compression_list_witness :
  (api_identify (sample_backend (sample_identity "YYYY-MM-DD" (PyList ["gzip"; "compress"])) [])
   = Ok (sample_identity "YYYY-MM-DD" (PyList ["gzip"; "compress"])) ∧
   ServerIdentify.compression (sample_identity "YYYY-MM-DD" (PyList ["gzip"; "compress"]))
   = PyList ["gzip"; "compress"]) ∧
  ∃ h' root date request result,
    identify datetime_to_datestamp_spec sample_now
      (sample_server (sample_identity "YYYY-MM-DD" (PyList ["gzip"; "compress"])) []) []
    = (Ok (MkElementTree 0), h') ∧
    to_tree h' 0 = Some (TNode root [date; request; result]) ∧
    tag (root_elem result) = nsoai "Identify" ∧
    compression_elements result
    = [leaf (nsoai "compression") "gzip"; leaf (nsoai "compression") "compress"] ∧
    (compression_elements result = [] ↔
     ["gzip"; "compress"] = ["identity"] ∨ ["gzip"; "compress"] = []).
Proof.
  split; [split; reflexivity|].
  exact (identify_compression_list datetime_to_datestamp_spec sample_now
           (sample_server (sample_identity "YYYY-MM-DD" (PyList ["gzip"; "compress"])) [])
           [] (sample_identity "YYYY-MM-DD" (PyList ["gzip"; "compress"]))
           ["gzip"; "compress"] eq_refl eq_refl).
Defined.

(** C3, as stated, fails: the empty compression list is not [["identity"]],
    and the response has no [compression] child all the same. *)
Lemma compression_omitted_counterexample :
  ∃ root date request result,
    to_tree (sample_run (sample_identity "YYYY-MM-DD" (PyList [])) [] Identify).2 0
    = Some (TNode root [date; request; result]) ∧
    tag (root_elem result) = nsoai "Identify" ∧
    compression_elements result = [] ∧
    ServerIdentify.compression (sample_identity "YYYY-MM-DD" (PyList []))
    ≠ PyList ["identity"].
Proof.
  eexists _, _, _, _. split; [vm_compute; reflexivity|].
  split; [reflexivity|]. split; [reflexivity|]. discriminate.
Qed.

(** C9.  A backend that takes [identify] from the base class [Server]
    returns an identity whose compression is the string ['identity'], not
    the list [['identity']].  The two are unequal, so the [Identify]
    response does not omit the compression: it carries eight [compression]
    children, one for each character of the string. *)
Theorem default_identity_compression dts now self h srv getEarliest earliest :
  api_identify (XMLTreeServer._server self) = Server.identify srv getEarliest →
  getEarliest srv = Ok earliest →
  ∃ ident h' root date request result,
    api_identify (XMLTreeServer._server self) = Ok ident ∧
    ServerIdentify.compression ident = PyStr "identity" ∧
    ServerIdentify.compression ident ≠ PyList ["identity"] ∧
    identify dts now self h = (Ok (MkElementTree (length h)), h') ∧
    to_tree h' (length h) = Some (TNode root [date; request; result]) ∧
    tag (root_elem result) = nsoai "Identify" ∧
    compression_elements result
    = leaf (nsoai "compression") <$> ["i"; "d"; "e"; "n"; "t"; "i"; "t"; "y"].
Proof.
  intros Hdefault Hearliest.
  unfold Server.identify in Hdefault. rewrite Hearliest in Hdefault.
  destruct (identify_compression dts now self h _ Hdefault)
    as (h' & root & date & request & result & Hrun & Htree & Htag & Hc).
  eexists _, h', root, date, request, result.
  split_and!; [exact Hdefault|done|done|done|done|done|].
  rewrite Hc. reflexivity.
Qed.

Lemma default_identity_compression_witness :
  (api_identify (Server_api (Server.Make "Sample" "http://example.org/oai" ["admin@example.org"])
                   (λ _, Ok sample_now))
   = Server.identify (Server.Make "Sample" "http://example.org/oai" ["admin@example.org"])
       (λ _, Ok sample_now) ∧
   (λ _ : Server.t, Ok sample_now)
     (Server.Make "Sample" "http://example.org/oai" ["admin@example.org"])
   = Ok sample_now) ∧
  ∃ ident h' root date request result,
    api_identify (Server_api (Server.Make "Sample" "http://example.org/oai"
                                ["admin@example.org"]) (λ _, Ok sample_now))
    = Ok ident ∧
    ServerIdentify.compression ident = PyStr "identity" ∧
    ServerIdentify.compression ident ≠ PyList ["identity"] ∧
    identify datetime_to_datestamp_spec sample_now
      (XMLTreeServer.Make
         (Server_api (Server.Make "Sample" "http://example.org/oai" ["admin@example.org"])
            (λ _, Ok sample_now))
         sample_registry) []
    = (Ok (MkElementTree 0), h') ∧
    to_tree h' 0 = Some (TNode root [date; request; result]) ∧
    tag (root_elem result) = nsoai "Identify" ∧
    compression_elements result
    = leaf (nsoai "compression") <$> ["i"; "d"; "e"; "n"; "t"; "i"; "t"; "y"].
Proof.
  split; [split; reflexivity|].
  exact (default_identity_compression datetime_to_datestamp_spec sample_now
           (XMLTreeServer.Make
              (Server_api (Server.Make "Sample" "http://example.org/oai"
                             ["admin@example.org"]) (λ _, Ok sample_now))
              sample_registry)
           [] (Server.Make "Sample" "http://example.org/oai" ["admin@example.org"])
           (λ _, Ok sample_now) sample_now eq_refl eq_refl).
Defined.

(** ** Headers and the Dublin Core writer *)

(** Code that hangs one tree on [p]: the new tree is the last child of [p]
    and can be read back at the first free reference. *)
Lemma shapes_one {A} (c : M A) p res t h :
  shapes c p res id [t] →
  p < length h →
  ∃ h', c h = (res, h') ∧
        h' !! p = (λ n : node, (n.1, n.2 ++ [length h])) <$> h !! p ∧
        to_tree h' (length h) = Some t.
Proof.
  intros Hc Hp. exists (grafted p id [t] h). split; [by apply Hc|].
  unfold grafted. simpl. split.
  - rewrite lookup_app_l by (rewrite length_alter; lia).
    by rewrite list_lookup_alter_eq.
  - pose proof (to_tree_layout
                  (alter (λ n : node, (id n.1, n.2 ++ [length h])) p h) t []) as H.
    by rewrite length_alter in H.
Qed.



(** The listing verbs render every header through [_outputHeader]: the
    children of [ListIdentifiers] are the headers of the backend, in the
    order in which it yields them. *)
Lemma listIdentifiers_headers dts now self p f u s t h et h' :
  listIdentifiers dts now self p f u s t h = (Ok et, h') →
  ∃ root date request,
    to_tree h' (getroot et)
    = Some (TNode root
              [date; request;
               element (nsoai "ListIdentifiers")
                 (header_tree dts <$>
                  iter_items (api_listIdentifiers (XMLTreeServer._server self)
                                (listing_kw p f u s t)))]).
Proof.
  rewrite run_listIdentifiers.
  destruct (api_identify (XMLTreeServer._server self)) as [ident|e]; [|done].
  intros [Hres <-]%pair_equal_spec.
  destruct (iter_end _) as [[]|e]; [|done]. injection Hres as <-.
  eexists _, _, _. apply to_tree_layout_end.
Qed.




(** ** A prefix that is not registered *)

(** C8, as amended.  When the backend's [identify] returns and its
    [listRecords] yields a first record, a [listRecords] call whose prefix
    is not registered ends in [UnsupportedMetadataFormat], and no document
    is returned.  At that moment the [header] of the record is complete and
    the [metadata] element next to it has no child. *)
Theorem unregistered_prefix_fails_after_header
    dts now self p f u s t h ident header metadata about rest :
  registered (XMLTreeServer._metadata_registry self) p = None →
  api_identify (XMLTreeServer._server self) = Ok ident →
  api_listRecords (XMLTreeServer._server self) (listing_kw p f u s t)
  = Yield (header, metadata, about) rest →
  ∃ h' root date request,
    listRecords dts now self p f u s t h = (Raise UnsupportedMetadataFormat, h') ∧
    to_tree h' (length h)
    = Some (TNode root
              [date; request;
               element (nsoai "ListRecords")
                 [element (nsoai "record")
                    [element (nsoai "header")
                       (leaf (nsoai "identifier") (Header.identifier header) ::
                        leaf (nsoai "datestamp") (dts (Header.datestamp header)) ::
                        (leaf (nsoai "setSpec") <$> Header.setSpec header));
                     element (nsoai "metadata") []]]]).
Proof.
  intros Hreg Hident Hrecords. unfold listRecords.
  rewrite (run_verb dts now self _ _ h (λ _ _, Raise UnsupportedMetadataFormat)
             (λ _, [element (nsoai "ListRecords")
                      [element (nsoai "record")
                         [header_tree dts header; element (nsoai "metadata") []]]])).
  - rewrite Hident. eexists _, _, _, _. split; [done|]. apply to_tree_layout_end.
  - intros r ident' _. rewrite Hrecords. unfold element at 1.
    eapply (shapes_child _ _ _ _ id); [intros q|reflexivity].
    apply shapes_bind_raise. cbn [for_iter]. apply shapes_bind_raise.
    unfold element at 1.
    eapply (shapes_child _ _ _ _ id); [intros q'|reflexivity].
    eapply (shapes_seq _ _ _ tt _ _ [_] [_]); [apply shapes_outputHeader|].
    by apply shapes_outputMetadata_unregistered.
Qed.

Lemma unregistered_prefix_fails_after_header_witness :
  (registered sample_registry (Some "marc") = None ∧
   api_identify (sample_backend (sample_identity "YYYY-MM-DD" (PyList ["gzip"]))
                   [(sample_header, sample_metadata, None)])
   = Ok (sample_identity "YYYY-MM-DD" (PyList ["gzip"])) ∧
   api_listRecords (sample_backend (sample_identity "YYYY-MM-DD" (PyList ["gzip"]))
                      [(sample_header, sample_metadata, None)])
     (listing_kw (Some "marc") None None None None)
   = Yield (sample_header, sample_metadata, None) StopIteration) ∧
  ∃ h' root date request,
    listRecords datetime_to_datestamp_spec sample_now
      (sample_server (sample_identity "YYYY-MM-DD" (PyList ["gzip"]))
         [(sample_header, sample_metadata, None)])
      (Some "marc") None None None None []
    = (Raise UnsupportedMetadataFormat, h') ∧
    to_tree h' 0
    = Some (TNode root
              [date; request;
               element (nsoai "ListRecords")
                 [element (nsoai "record")
                    [element (nsoai "header")
                       [leaf (nsoai "identifier") "oai:example.org:1";
                        leaf (nsoai "datestamp") "2003-07-09T10:11:12Z";
                        leaf (nsoai "setSpec") "a:b";
                        leaf (nsoai "setSpec") "a:c"];
                     element (nsoai "metadata") []]]]).
Proof.
  split; [split_and!; reflexivity|].
  exact (unregistered_prefix_fails_after_header datetime_to_datestamp_spec sample_now
           (sample_server (sample_identity "YYYY-MM-DD" (PyList ["gzip"]))
              [(sample_header, sample_metadata, None)])
           (Some "marc") None None None None []
           (sample_identity "YYYY-MM-DD" (PyList ["gzip"]))
           sample_header sample_metadata None StopIteration
           eq_refl eq_refl eq_refl).
Defined.

(** C8, as stated, fails: when the backend yields no record, the writer is
    never asked for, and the call with the unregistered prefix returns a
    document. *)
Lemma unregistered_prefix_counterexample :
  registered sample_registry (Some "marc") = None ∧
  ∃ h' root date request,
    listRecords datetime_to_datestamp_spec sample_now
      (sample_server (sample_identity "YYYY-MM-DD" (PyList ["gzip"])) [])
      (Some "marc") None None None None []
    = (Ok (MkElementTree 0), h') ∧
    to_tree h' 0
    = Some (TNode root [date; request; element (nsoai "ListRecords") []]).
Proof.
  split; [reflexivity|]. eexists _, _, _, _. split; vm_compute; reflexivity.
Qed.

(** ** The dispatcher *)






(** The five verb names that the dispatcher does find, in either case of
    the first letter, and the sixth that it does not. *)
Lemma getattr_verbs :
  getattr (method_name "Identify") = Ok m_identify ∧
  getattr (method_name "identify") = Ok m_identify ∧
  getattr (method_name "GetRecord") = Ok m_getRecord ∧
  getattr (method_name "ListIdentifiers") = Ok m_listIdentifiers ∧
  getattr (method_name "ListMetadataFormats") = Ok m_listMetadataFormats ∧
  getattr (method_name "ListRecords") = Ok m_listRecords ∧
  getattr (method_name "ListSets") = Raise (AttributeError "listSets").
Proof. repeat split; vm_compute; reflexivity. Qed.

(** ** The base class *)

(** C10.  [Server.getRecord] ends in a [NameError]: the name
    [notImplementedError] in its [raise] statement is bound nowhere.  The
    other operations that the base class leaves to the backend end in
    [NotImplementedError]. *)
Theorem base_getRecord_raises_NameError self identifier metadataPrefix :
  Server.getRecord self identifier metadataPrefix
  = Raise (NameError "notImplementedError") ∧
  (∀ p f u s t, Server.listIdentifiers self p f u s t = Throw NotImplementedError) ∧
  (∀ i, Server.listMetadataFormats self i = Throw NotImplementedError) ∧
  (∀ p f u s t, Server.listRecords self p f u s t = Throw NotImplementedError) ∧
  (∀ t, Server.listSets self t = Throw NotImplementedError) ∧
  Server._getEarliestDatestamp self = Raise NotImplementedError.
Proof. repeat split; intros; vm_compute; reflexivity. Qed.

(** * Further properties of the responder *)

(** ** The documents of the verbs *)

(** X1.  When the backend returns an identity, [identify] returns a
    document whose [Identify] element holds, in this order: the repository
    name, the base URL, the protocol version, one [adminEmail] for each
    address, the earliest datestamp, the deleted-record policy, the
    granularity and the compressions. *)
Theorem identify_document dts now self h ident :
  api_identify (XMLTreeServer._server self) = Ok ident →
  ∃ h' root date request,
    identify dts now self h = (Ok (MkElementTree (length h)), h') ∧
    to_tree h' (length h)
    = Some (TNode root
              [date; request;
               TNode (Elem (nsoai "Identify") [] [] None)
                 (leaf (nsoai "repositoryName") (ServerIdentify.repositoryName ident) ::
                  leaf (nsoai "baseURL") (ServerIdentify.baseURL ident) ::
                  leaf (nsoai "protocolVersion") (ServerIdentify.protocolVersion ident) ::
                  (leaf (nsoai "adminEmail") <$> ServerIdentify.adminEmails ident) ++
                  leaf (nsoai "earliestDatestamp")
                    (dts (ServerIdentify.earliestDatestamp ident)) ::
                  leaf (nsoai "deletedRecord") (ServerIdentify.deletedRecord ident) ::
                  leaf (nsoai "granularity") (ServerIdentify.granularity ident) ::
                  (if decide (ServerIdentify.compression ident ≠ PyList ["identity"])
                   then leaf (nsoai "compression") <$>
                        iter_pyseq (ServerIdentify.compression ident)
                   else []))]).
Proof.
  intros Hident. rewrite run_identify, Hident.
  eexists _, _, _, _. split; [done|]. apply to_tree_layout_end.
Qed.

Lemma identify_document_witness :
  api_identify (sample_backend (sample_identity "YYYY-MM-DD" (PyList ["gzip"])) [])
  = Ok (sample_identity "YYYY-MM-DD" (PyList ["gzip"])) ∧
  ∃ h' root date request,
    identify datetime_to_datestamp_spec sample_now
      (sample_server (sample_identity "YYYY-MM-DD" (PyList ["gzip"])) []) []
    = (Ok (MkElementTree 0), h') ∧
    to_tree h' 0
    = Some (TNode root
              [date; request;
               TNode (Elem (nsoai "Identify") [] [] None)
                 [leaf (nsoai "repositoryName") "Sample";
                  leaf (nsoai "baseURL") "http://example.org/oai";
                  leaf (nsoai "protocolVersion") "2.0";
                  leaf (nsoai "adminEmail") "admin@example.org";
                  leaf (nsoai "earliestDatestamp") "1999-12-31T00:00:00Z";
                  leaf (nsoai "deletedRecord") "no";
                  leaf (nsoai "granularity") "YYYY-MM-DD";
                  leaf (nsoai "compression") "gzip"]]).
Proof.
  split; [reflexivity|].
  exact (identify_document datetime_to_datestamp_spec sample_now
           (sample_server (sample_identity "YYYY-MM-DD" (PyList ["gzip"])) []) []
           (sample_identity "YYYY-MM-DD" (PyList ["gzip"])) eq_refl).
Defined.

(** What [listIdentifiers] does once the envelope stands: it returns if the
    backend's listing ends, raises what the listing raises, and in both
    cases has rendered the headers that the listing yielded. *)
Lemma listIdentifiers_outcome dts now self p f u s t h ident :
  api_identify (XMLTreeServer._server self) = Ok ident →
  ∃ h' root date request,
    listIdentifiers dts now self p f u s t h
    = (match iter_end (api_listIdentifiers (XMLTreeServer._server self)
                         (listing_kw p f u s t)) with
       | Ok _ => Ok (MkElementTree (length h))
       | Raise e => Raise e
       end, h') ∧
    to_tree h' (length h)
    = Some (TNode root
              [date; request;
               element (nsoai "ListIdentifiers")
                 (header_tree dts <$>
                  iter_items (api_listIdentifiers (XMLTreeServer._server self)
                                (listing_kw p f u s t)))]).
Proof.
  intros Hident. rewrite run_listIdentifiers, Hident.
  eexists _, _, _, _. split; [done|]. apply to_tree_layout_end.
Qed.



(** X3.  When the backend's listing of headers raises after it has yielded
    some, [listIdentifiers] raises the same exception and returns no
    document; the headers yielded before have been rendered one by one, and
    nothing after them. *)
Theorem listIdentifiers_backend_raises dts now self p f u s t h ident e :
  api_identify (XMLTreeServer._server self) = Ok ident →
  iter_end (api_listIdentifiers (XMLTreeServer._server self) (listing_kw p f u s t))
  = Raise e →
  ∃ h' root date request,
    listIdentifiers dts now self p f u s t h = (Raise e, h') ∧
    to_tree h' (length h)
    = Some (TNode root
              [date; request;
               element (nsoai "ListIdentifiers")
                 (header_tree dts <$>
                  iter_items (api_listIdentifiers (XMLTreeServer._server self)
                                (listing_kw p f u s t)))]).
Proof.
  intros Hident Hend.
  destruct (listIdentifiers_outcome dts now self p f u s t h ident Hident)
    as (h' & root & date & request & Hrun & Htree).
  rewrite Hend in Hrun. by exists h', root, date, request.
Qed.

Lemma listIdentifiers_backend_raises_witness :
  (api_identify (sample_broken_backend (sample_identity "YYYY-MM-DD" (PyList ["gzip"])))
   = Ok (sample_identity "YYYY-MM-DD" (PyList ["gzip"])) ∧
   iter_end (api_listIdentifiers
               (sample_broken_backend (sample_identity "YYYY-MM-DD" (PyList ["gzip"])))
               (listing_kw (Some "oai_dc") None None None None))
   = Raise (UserError "IOError")) ∧
  ∃ h' root date request,
    listIdentifiers datetime_to_datestamp_spec sample_now
      (XMLTreeServer.Make
         (sample_broken_backend (sample_identity "YYYY-MM-DD" (PyList ["gzip"])))
         sample_registry)
      (Some "oai_dc") None None None None []
    = (Raise (UserError "IOError"), h') ∧
    to_tree h' 0
    = Some (TNode root
              [date; request;
               element (nsoai "ListIdentifiers")
                 [header_tree datetime_to_datestamp_spec sample_header]]).
Proof.
  split; [split; reflexivity|].
  exact (listIdentifiers_backend_raises datetime_to_datestamp_spec sample_now
           (XMLTreeServer.Make
              (sample_broken_backend (sample_identity "YYYY-MM-DD" (PyList ["gzip"])))
              sample_registry)
           (Some "oai_dc") None None None None []
           (sample_identity "YYYY-MM-DD" (PyList ["gzip"])) (UserError "IOError")
           eq_refl eq_refl).
Defined.

(** X4.  When the backend's identity and its listing of formats both come
    without an exception, [listMetadataFormats] returns a document whose
    [ListMetadataFormats] element holds one [metadataFormat] for each triple
    of the listing, in its order, with the children [metadataPrefix],
    [schema] and [metadataNamespace]. *)
Theorem listMetadataFormats_document dts now self i h ident :
  api_identify (XMLTreeServer._server self) = Ok ident →
  iter_end (api_listMetadataFormats (XMLTreeServer._server self)
              (if i is Some _ then <["identifier" := i]> ∅ else ∅))
  = Ok tt →
  ∃ h' root date request,
    listMetadataFormats dts now self i h = (Ok (MkElementTree (length h)), h') ∧
    to_tree h' (length h)
    = Some (TNode root
              [date; request;
               element (nsoai "ListMetadataFormats")
                 ((λ '(metadataPrefix, schema, metadataNamespace),
                     element (nsoai "metadataFormat")
                       [leaf (nsoai "metadataPrefix") metadataPrefix;
                        leaf (nsoai "schema") schema;
                        leaf (nsoai "metadataNamespace") metadataNamespace]) <$>
                  iter_items (api_listMetadataFormats (XMLTreeServer._server self)
                                (if i is Some _ then <["identifier" := i]> ∅ else ∅)))]).
Proof.
  intros Hident Hend. rewrite run_listMetadataFormats, Hident, Hend.
  eexists _, _, _, _. split; [done|]. apply to_tree_layout_end.
Qed.

Lemma listMetadataFormats_document_witness :
  (api_identify (sample_backend (sample_identity "YYYY-MM-DD" (PyList ["gzip"])) [])
   = Ok (sample_identity "YYYY-MM-DD" (PyList ["gzip"])) ∧
   iter_end (api_listMetadataFormats
               (sample_backend (sample_identity "YYYY-MM-DD" (PyList ["gzip"])) [])
               (<["identifier" := Some "oai:example.org:1"]> ∅))
   = Ok tt) ∧
  ∃ h' root date request,
    listMetadataFormats datetime_to_datestamp_spec sample_now
      (sample_server (sample_identity "YYYY-MM-DD" (PyList ["gzip"])) [])
      (Some "oai:example.org:1") []
    = (Ok (MkElementTree 0), h') ∧
    to_tree h' 0
    = Some (TNode root
              [date; request;
               element (nsoai "ListMetadataFormats")
                 [element (nsoai "metadataFormat")
                    [leaf (nsoai "metadataPrefix") "oai_dc";
                     leaf (nsoai "schema")
                       "http://www.openarchives.org/OAI/2.0/oai_dc.xsd";
                     leaf (nsoai "metadataNamespace")
                       "http://www.openarchives.org/OAI/2.0/oai_dc/"]]]).
Proof.
  split; [split; reflexivity|].
  exact (listMetadataFormats_document datetime_to_datestamp_spec sample_now
           (sample_server (sample_identity "YYYY-MM-DD" (PyList ["gzip"])) [])
           (Some "oai:example.org:1") []
           (sample_identity "YYYY-MM-DD" (PyList ["gzip"])) eq_refl eq_refl).
Defined.



(** ** When the backend fails *)




(** ** What the verbs leave alone *)

(** X7.  A verb operation builds its document from fresh elements only:
    whether it returns or raises, every element that was there before is as
    it was, and the new ones come after them.  (For [listRecords] the
    writers are assumed to keep to their contract.) *)
Theorem perform_keeps_heap dts now self c h :
  (uses_registry c → registry_ok (XMLTreeServer._metadata_registry self)) →
  h `prefix_of` (perform dts now self c h).2.
Proof.
  intros Hok. destruct c as [|p f u s t|i|p f u s t]; cbn [perform].
  - rewrite run_identify.
    destruct (api_identify _); cbn [snd]; apply prefix_app_r; done.
  - rewrite run_listIdentifiers.
    destruct (api_identify _); cbn [snd]; apply prefix_app_r; done.
  - rewrite run_listMetadataFormats.
    destruct (api_identify _); cbn [snd]; apply prefix_app_r; done.
  - destruct (run_listRecords dts now self p f u s t h (Hok I)) as (res & ks & ->).
    destruct (api_identify _); cbn [snd]; apply prefix_app_r; done.
Qed.

Lemma perform_keeps_heap_witness :
  (uses_registry (ListRecords (Some "oai_dc") None None None None) →
   registry_ok sample_registry) ∧
  sample_parent `prefix_of`
    (perform datetime_to_datestamp_spec sample_now
       (sample_server (sample_identity "YYYY-MM-DD" (PyList ["gzip"]))
          [(sample_header, sample_metadata, None)])
       (ListRecords (Some "oai_dc") None None None None) sample_parent).2.
Proof.
  split; [intros _; apply sample_registry_ok|].
  exact (perform_keeps_heap datetime_to_datestamp_spec sample_now
           (sample_server (sample_identity "YYYY-MM-DD" (PyList ["gzip"]))
              [(sample_header, sample_metadata, None)])
           (ListRecords (Some "oai_dc") None None None None) sample_parent
           (λ _, sample_registry_ok)).
Defined.









(** ** What the backend is asked *)

(** X9.  The keyword dictionary that [listIdentifiers] and [listRecords]
    pass to the backend always holds [metadataPrefix]; it holds [from_],
    [until], [set] and [resumptionToken] exactly when they are not [None],
    with their values; and it holds nothing else.  So the backend is never
    handed [None] for an optional argument. *)
Theorem listing_kw_lookup p f u s t :
  listing_kw p f u s t !! "metadataPrefix" = Some p ∧
  listing_kw p f u s t !! "from_" = (if f is Some _ then Some f else None) ∧
  listing_kw p f u s t !! "until" = (if u is Some _ then Some u else None) ∧
  listing_kw p f u s t !! "set" = (if s is Some _ then Some s else None) ∧
  listing_kw p f u s t !! "resumptionToken" = (if t is Some _ then Some t else None) ∧
  ∀ key, key ∉ ["metadataPrefix"; "from_"; "until"; "set"; "resumptionToken"] →
         listing_kw p f u s t !! key = None.
Proof.
  unfold listing_kw.
  destruct f as [f|], u as [u|], s as [s|], t as [t|];
    (split_and!; [by simplify_map_eq..|]);
    intros key Hkey; rewrite !not_elem_of_cons in Hkey;
    destruct Hkey as (? & ? & ? & ? & ? & _);
    by rewrite ?lookup_insert_ne, lookup_empty by done.
Qed.





(** ** More on the dispatcher *)




(** X13.  No document ever comes of [GetRecord] or [ListSets].  The method
    [getRecord] of the tree server is [pass]: given its two arguments it
    returns [None], on which [.getroot()] is an [AttributeError], and given
    anything else the call is a [TypeError].  The tree server has no
    [listSets] at all.  Nothing is built in either case. *)
Theorem getRecord_listSets_no_document dts now self args kw h :
  handleVerb dts now self "GetRecord" args kw h
  = (if binds ["identifier"; "metadataPrefix"] ["identifier"; "metadataPrefix"]
          (list_to_map kw)
     then Raise (AttributeError "getroot")
     else Raise TypeError, h) ∧
  handleVerb dts now self "ListSets" args kw h = (Raise (AttributeError "listSets"), h).
Proof.
  split; [|reflexivity].
  unfold handleVerb, mbind, M_bind, lift, call_member.
  change (getattr _) with (Ok m_getRecord). cbn iota beta.
  by destruct (binds _ _ _).
Qed.

(** X14.  Dispatching [Identify] without keyword arguments gives what
    [identify] builds: when the backend returns an identity, the dispatcher
    returns the document of [identify], serialised, and leaves the heap as
    [identify] left it. *)
Theorem handleVerb_identify dts now self args h ident :
  api_identify (XMLTreeServer._server (_tree_server self)) = Ok ident →
  ∃ h' document,
    identify dts now (_tree_server self) h = (Ok (MkElementTree (length h)), h') ∧
    to_tree h' (length h) = Some document ∧
    handleVerb dts now self "Identify" args [] h = (Ok document, h').
Proof.
  intros Hident.
  eexists _, _. split; [by rewrite run_identify, Hident|].
  split; [apply to_tree_layout_end|].
  unfold handleVerb, call_member.
  change (getattr _) with (Ok m_identify).
  change (binds [] [] (list_to_map [])) with true. cbn iota.
  repeat (unfold mbind, M_bind, lift, mret, M_ret; cbn iota beta).
  rewrite run_identify, Hident. unfold tostring. cbn [getroot].
  by rewrite to_tree_layout_end.
Qed.

Lemma handleVerb_identify_witness :
  api_identify
    (XMLTreeServer._server
       (_tree_server
          (XMLServer_init sample_registry
             (sample_backend (sample_identity "YYYY-MM-DD" (PyList ["gzip"])) []) None)))
  = Ok (sample_identity "YYYY-MM-DD" (PyList ["gzip"])) ∧
  ∃ h' document,
    identify datetime_to_datestamp_spec sample_now
      (_tree_server
         (XMLServer_init sample_registry
            (sample_backend (sample_identity "YYYY-MM-DD" (PyList ["gzip"])) []) None)) []
    = (Ok (MkElementTree 0), h') ∧
    to_tree h' 0 = Some document ∧
    handleVerb datetime_to_datestamp_spec sample_now
      (XMLServer_init sample_registry
         (sample_backend (sample_identity "YYYY-MM-DD" (PyList ["gzip"])) []) None)
      "Identify" [] [] []
    = (Ok document, h').
Proof.
  split; [reflexivity|].
  exact (handleVerb_identify datetime_to_datestamp_spec sample_now
           (XMLServer_init sample_registry
              (sample_backend (sample_identity "YYYY-MM-DD" (PyList ["gzip"])) []) None)
           [] [] (sample_identity "YYYY-MM-DD" (PyList ["gzip"])) eq_refl).
Defined.

Lemma binds_missing params required (kw : kwdict) name :
  name ∈ required → name ∉ kw.*1 →
  binds params required (list_to_map kw) = false.
Proof.
  intros Hreq Hkw. unfold binds. apply andb_false_intro2, bool_decide_eq_false_2.
  intros Hsub. apply Hkw.
  assert (name ∈ dom (list_to_map kw : kwargs)) as Hdom
    by (apply Hsub; by apply elem_of_list_to_set).
  by rewrite dom_list_to_map_L, elem_of_list_to_set in Hdom.
Qed.

(** X15.  A listing verb dispatched without [metadataPrefix] among its
    keyword arguments is a [TypeError], and nothing is built: the backend is
    not asked and no envelope is begun. *)
Theorem handleVerb_missing_prefix dts now self args kw h :
  "metadataPrefix" ∉ kw.*1 →
  handleVerb dts now self "ListIdentifiers" args kw h = (Raise TypeError, h) ∧
  handleVerb dts now self "ListRecords" args kw h = (Raise TypeError, h).
Proof.
  intros Hkw. split.
  - unfold handleVerb, mbind, M_bind, lift, call_member.
    change (getattr _) with (Ok m_listIdentifiers). cbn iota beta.
    rewrite (binds_missing _ _ kw "metadataPrefix"); [done| |done].
    apply list_elem_of_singleton. done.
  - unfold handleVerb, mbind, M_bind, lift, call_member.
    change (getattr _) with (Ok m_listRecords). cbn iota beta.
    rewrite (binds_missing _ _ kw "metadataPrefix"); [done| |done].
    apply list_elem_of_singleton. done.
Qed.

Lemma handleVerb_missing_prefix_witness :
("metadataPrefix" ∉ [("from_", Some "2003-01-01")].*1) ∧
  handleVerb datetime_to_datestamp_spec sample_now
    (XMLServer_init sample_registry
       (sample_backend (sample_identity "YYYY-MM-DD" (PyList ["gzip"])) []) None)
    "ListIdentifiers" [] [("from_", Some "2003-01-01")] []
  = (Raise TypeError, []) ∧
  handleVerb datetime_to_datestamp_spec sample_now
    (XMLServer_init sample_registry
       (sample_backend (sample_identity "YYYY-MM-DD" (PyList ["gzip"])) []) None)
    "ListRecords" [] [("from_", Some "2003-01-01")] []
  = (Raise TypeError, []).
Proof.
  assert (H : "metadataPrefix" ∉ [("from_", Some "2003-01-01")].*1)
    by (apply (bool_decide_unpack _); vm_compute; exact I).
  split; [exact H|].
  exact (handleVerb_missing_prefix datetime_to_datestamp_spec sample_now
           (XMLServer_init sample_registry
              (sample_backend (sample_identity "YYYY-MM-DD" (PyList ["gzip"])) []) None)
           [] [("from_", Some "2003-01-01")] [] H).
Defined.

(** X16.  [Identify] dispatched with any keyword argument is a
    [TypeError], and nothing is built. *)
Theorem handleVerb_identify_takes_no_argument dts now self args key value kw h :
  handleVerb dts now self "Identify" args ((key, value) :: kw) h = (Raise TypeError, h).
Proof.
  unfold handleVerb, mbind, M_bind, lift, call_member.
  change (getattr _) with (Ok m_identify). cbn iota beta.
  assert (binds [] [] (list_to_map ((key, value) :: kw)) = false) as ->; [|done].
  unfold binds. apply andb_false_intro1, bool_decide_eq_false_2.
  intros Hsub. specialize (Hsub key).
  rewrite dom_list_to_map_L, elem_of_list_to_set in Hsub.
  cbn in Hsub. rewrite elem_of_empty in Hsub. apply Hsub. apply list_elem_of_here.
Qed.

(** ** More on the helpers *)

(** X17.  When the record's map holds no value under any of the fifteen
    field names (a field missing or holding the empty list), [oai_dc_writer]
    still appends the [dc] element, with its schema-location attribute, and
    the element has no child. *)
Theorem dc_writer_no_fields h element metadata :
  element < length h →
  (∀ name, name ∈ dc_fields → default [] (Metadata.getMap metadata !! name) = []) →
  ∃ h',
    oai_dc_writer element metadata h = (Ok tt, h') ∧
    h' !! element = (λ n : node, (n.1, n.2 ++ [length h])) <$> h !! element ∧
    to_tree h' (length h)
    = Some (TNode (Elem (nsoaidc "dc") []
                     [("{http://www.w3.org/2001/XMLSchema-instance}schemaLocation",
                       "http://purl.org/dc/elements/1.1/ http://www.openarchives.org/OAI/2.0/oai_dc.xsd")]
                     None) []).
Proof.
  intros Hel Hnone.
  destruct (shapes_one _ element (Ok tt) (dc_tree metadata) h
              (shapes_oai_dc_writer element metadata) Hel) as (h' & Hrun & Hp & Ht).
  exists h'. split_and!; [done..|]. rewrite Ht. unfold dc_tree. do 2 f_equal.
  unfold dc_children. revert Hnone. generalize dc_fields. intros names Hnone.
  induction names as [|name names IH]; [done|].
  cbn [flat_map]. rewrite Hnone by apply list_elem_of_here. simpl.
  apply IH. intros n Hn. apply Hnone. by apply list_elem_of_further.
Qed.

Lemma dc_writer_no_fields_witness :
  (0 < length sample_parent ∧
   ∀ name, name ∈ dc_fields →
     default [] (Metadata.getMap
                   (Metadata.Make (<["title" := []]> (<["isbn" := ["1"]]> ∅))) !! name)
     = []) ∧
  ∃ h',
    oai_dc_writer 0 (Metadata.Make (<["title" := []]> (<["isbn" := ["1"]]> ∅))) sample_parent
    = (Ok tt, h') ∧
    h' !! 0 = (λ n : node, (n.1, n.2 ++ [1])) <$> sample_parent !! 0 ∧
    to_tree h' 1
    = Some (TNode (Elem (nsoaidc "dc") []
                     [("{http://www.w3.org/2001/XMLSchema-instance}schemaLocation",
                       "http://purl.org/dc/elements/1.1/ http://www.openarchives.org/OAI/2.0/oai_dc.xsd")]
                     None) []).
Proof.
  assert (H : ∀ name, name ∈ dc_fields →
            default [] (Metadata.getMap
                          (Metadata.Make (<["title" := []]> (<["isbn" := ["1"]]> ∅)))
                        !! name) = []).
  { intros name Hname. unfold dc_fields in Hname.
    repeat (apply elem_of_cons in Hname as [->|Hname]; [vm_compute; reflexivity|]).
    by apply elem_of_nil in Hname. }
  split; [split; [simpl; lia|exact H]|].
  exact (dc_writer_no_fields sample_parent 0
           (Metadata.Make (<["title" := []]> (<["isbn" := ["1"]]> ∅))) (le_n 1) H).
Defined.



(** X19.  The three helpers that qualify a name keep names apart: each of
    [nsoai], [nsoaidc] and [nsdc] gives different tags for different names,
    and no tag of one is a tag of another. *)
Theorem qualified_names_apart a b :
  (nsoai a = nsoai b ↔ a = b) ∧
  (nsoaidc a = nsoaidc b ↔ a = b) ∧
  (nsdc a = nsdc b ↔ a = b) ∧
  nsoai a ≠ nsoaidc b ∧ nsoai a ≠ nsdc b ∧ nsoaidc a ≠ nsdc b.
Proof.
  unfold nsoai, nsoaidc, nsdc, NS_OAIPMH, NS_OAIDC, NS_DC. cbn.
  split_and!; try (split; intros H; by simplify_eq); discriminate.
Qed.
